(** * Contribution dashboard: the scoring service and the batch loader

    A shallow embedding of the TypeScript sources
      - [types.ts]                          (the record types),
      - [services/api.ts]                   (the hybrid API service),
      - [components/UserDetail.tsx]         (the "Basic Formula"),
      - [components/DashboardOverview.tsx]  (the burnout alert),
      - [App.tsx]                           (the [loadData] batch loader),
    followed by the properties that the specification states about them.

    Conventions of the embedding.
      - A JavaScript [number] is an exact rational ([Q]); the arithmetic of
        the sources ([+], [-], [*], [>], [Math.max], [Math.floor]) is the
        arithmetic of [Q], and equality of numbers is [Qeq] ([==]).  The
        sources compute in IEEE 754 binary64, which rounds.  A statement
        that depends on a sum, a product or a quotient is therefore made
        where the two agree: it carries a hypothesis under which the
        operations of the code are exact ([isSmallInteger], [isSmallHalf],
        [isCount]), or it states what monotone rounding preserves (an
        order, a bound by numbers that binary64 represents), or it relates
        a figure to the score that the code itself has computed.  The
        module [Binary64] replays the concrete examples on binary64
        numbers.
      - Effects are explicit: one [World] record holds the module variable
        [API_BASE], the React state of [App], the console, the answers of the
        network (a function of the requested URL), the number of requests
        sent so far, the instants at which the answers for the members
        arrive, and the values that successive calls of [Math.random]
        return.  Effectful functions live in the monad [Eff], whose failures
        are thrown JavaScript errors.
      - [Promise.all] starts the tasks of all members at once.  A task runs
        to its end when its answer arrives, so the tasks finish in the order
        of arrival, whatever the order of the roster; a member's own six
        draws of [Math.random] are contiguous in the sources as well, since
        [generateAdvancedMetrics] is synchronous.  The results are handed
        back in roster order.
      - A backend answer is typed: [variables] is missing ([undefined] or
        [null]) or has the four numeric fields of [Variables]; a body whose
        [variables] is another falsy value (0, false, the empty string) is
        outside the model.
      - Strings are ASCII strings; [toUpperCase] is the ASCII one, and a
        statement about it is made for ASCII ids ([Js.isAscii]).
      - [Array.prototype.sort] is the stable sort of the language, written
        as an insertion sort, and an object literal with a spread is the
        ordered list of its properties ([JsObject]). *)

From Stdlib Require Import QArith Qround ZArith Bool String Ascii List Lia Lqa.
From Stdlib Require Import DecimalString Floats.
From Stdlib Require Import Permutation Sorted.
Import ListNotations.

Local Open Scope string_scope.
Local Open Scope Q_scope.

(** ** JavaScript strings (ASCII fragment) *)

Module Js.

(** [c.toUpperCase()] on one ASCII character. *)
Definition upper_ascii (c : ascii) : ascii :=
  let n := nat_of_ascii c in
  if ((97 <=? n) && (n <=? 122))%nat then ascii_of_nat (n - 32) else c.

(** [s.toUpperCase()] *)
Fixpoint toUpperCase (s : string) : string :=
  match s with
  | EmptyString => EmptyString
  | String c r => String (upper_ascii c) (toUpperCase r)
  end.

(** [s.split(sep)] for a one-character separator; never the empty array. *)
Fixpoint split (sep : ascii) (s : string) : list string :=
  match s with
  | EmptyString => [EmptyString]
  | String c r =>
      if Ascii.eqb c sep then EmptyString :: split sep r
      else match split sep r with
           | h :: t => String c h :: t
           | [] => [String c EmptyString]
           end
  end.

(** [s.charAt(i)] *)
Definition charAt (i : nat) (s : string) : string := substring i 1 s.

(** [s.slice(i)] *)
Definition slice (i : nat) (s : string) : string :=
  substring i (String.length s - i) s.

(** [s.includes(sub)] *)
Definition includes (s sub : string) : bool :=
  match index 0 sub s with
  | Some _ => true
  | None => false
  end.

(** [s.replace(/\/$/, '')]: drop one trailing slash. *)
Fixpoint dropTrailingSlash (s : string) : string :=
  match s with
  | EmptyString => EmptyString
  | String c EmptyString => if Ascii.eqb c "/" then EmptyString else s
  | String c r => String c (dropTrailingSlash r)
  end.

(** A number inside a template literal, for the natural numbers the sources
    print (an HTTP status, a length). *)
Definition showNat (n : nat) : string :=
  NilZero.string_of_uint (Nat.to_uint n).

(** [a > b] on numbers. *)
Definition gt (a b : Q) : bool := negb (Qle_bool a b).

(** [Math.max(a, b)] *)
Definition Math_max (a b : Q) : Q := if Qle_bool a b then b else a.

(** [Math.floor(x)] *)
Definition Math_floor (x : Q) : Q := inject_Z (Qfloor x).

(** A thrown value: an [Error] object with its [name] and [message]. *)
Record Error := { name : string; message : string }.

Definition newError (msg : string) : Error :=
  {| name := "Error"; message := msg |}.

Definition error_eqb (e : Error) (n m : string) : bool :=
  String.eqb (name e) n && String.eqb (message e) m.

(** A string used as a condition: every string but the empty one is
    truthy. *)
Definition truthy (s : string) : bool := negb (String.eqb s "").

(** Is every character of the string an ASCII character?  On such strings
    [toUpperCase], [charAt] and [slice] above are those of the language. *)
Fixpoint isAscii (s : string) : bool :=
  match s with
  | EmptyString => true
  | String c r => (nat_of_ascii c <? 128)%nat && isAscii r
  end.

(** Does the character occur in the string? *)
Fixpoint hasChar (c : ascii) (s : string) : bool :=
  match s with
  | EmptyString => false
  | String d r => Ascii.eqb d c || hasChar c r
  end.

(** [xs.sort(cmp)]: the stable sort of the language, as an insertion sort.
    An element goes behind the elements that the comparator puts before it
    ([cmp x y > 0]) and stays in front of those it ties with. *)
Section Sort.

Context {A : Type} (cmp : A -> A -> Q).

Fixpoint insert (x : A) (l : list A) : list A :=
  match l with
  | [] => [x]
  | y :: r => if gt (cmp x y) 0 then y :: insert x r else x :: y :: r
  end.

Definition sort (l : list A) : list A := fold_right insert [] l.

End Sort.

End Js.

(** ** types.ts *)

Module User.
Record t := { id : string; name : string; role : string;
              avatarUrl : option string }.
End User.

Module AnalysisSummary.
Record t := { difficulty_rationale : string;
              kudos_evidence : list string;
              penalty_evidence : list string }.
End AnalysisSummary.

Module Variables.
Record t := { base_points : Q; difficulty_factor : Q;
              peer_kudos_count : Q; blocker_penalty_total : Q }.
End Variables.

Module SkillMetric.
Record t := { name : string; score : Q; gap : Q }.
End SkillMetric.

Module ProjectContribution.
Record t := { name : string; impact_value : string; role : string;
              contribution_pct : Q }.
End ProjectContribution.

Module WellnessMetrics.
Record t := { burnout_risk : Q; async_efficiency : Q;
              timezone_load_balance : string; last_break_taken : string }.
End WellnessMetrics.

Module CareerGrowth.
Record t := { mentorship_score : Q; learning_velocity : Q;
              promotion_readiness : Q; next_level_skills : list string }.
End CareerGrowth.

Module HistoryPoint.
Record t := { month : string; score : Q }.
End HistoryPoint.

Module AdvancedMetrics.
Record t := { skills : list SkillMetric.t;
              projects : list ProjectContribution.t;
              wellness : WellnessMetrics.t;
              growth : CareerGrowth.t;
              innovation_score : Q;
              tech_debt_reduction : Q;
              customer_impact : Q;
              attrition_risk_prediction : string;
              score_history : list HistoryPoint.t }.
End AdvancedMetrics.

(** The parsed body of a backend answer.  The declared type promises
    [variables]; the sources nevertheless test for its absence, so the
    embedding keeps the key optional. *)
Module ScoreResponse.
Record t := { analysis_summary : AnalysisSummary.t;
              variables : option Variables.t;
              final_score : option Q }.
End ScoreResponse.

(** [ScoreResponse & { advanced: AdvancedMetrics }] *)
Module ScoredResponse.
Record t := { analysis_summary : AnalysisSummary.t;
              variables : option Variables.t;
              final_score : option Q;
              advanced : AdvancedMetrics.t }.
End ScoredResponse.

Module FullUserPerformance.
Record t := { id : string; name : string; role : string;
              avatarUrl : option string;
              analysis_summary : AnalysisSummary.t;
              variables : Variables.t;
              final_score : Q;
              advanced : option AdvancedMetrics.t }.
End FullUserPerformance.

(** ** Object literals

    An object as the ordered list of its own properties.  A literal
    [{ k1: v1, ..., ...o }] defines its properties from left to right; a key
    that is defined again keeps its place and takes the later value. *)

Module JsObject.

Inductive Value :=
| VUndefined
| VString (s : string)
| VNumber (q : Q)
| VSummary (a : AnalysisSummary.t)
| VVariables (v : Variables.t)
| VAdvanced (a : AdvancedMetrics.t).

Definition t : Type := list (string * Value).

Fixpoint set (k : string) (v : Value) (o : t) : t :=
  match o with
  | [] => [(k, v)]
  | (k', v') :: r =>
      if String.eqb k' k then (k', v) :: r else (k', v') :: set k v r
  end.

Definition literal (props : list (string * Value)) : t :=
  fold_left (fun o kv => set (fst kv) (snd kv) o) props [].

Fixpoint get (k : string) (o : t) : option Value :=
  match o with
  | [] => None
  | (k', v) :: r => if String.eqb k' k then Some v else get k r
  end.

Definition keys (o : t) : list string := map fst o.

(** The own properties of a performance record, which [...p] copies; they
    are listed in the order of the type's declaration, the order in which
    the loader defines them being immaterial to a lookup. *)
Definition ofPerformance (p : FullUserPerformance.t) : list (string * Value) :=
  [ ("id", VString (FullUserPerformance.id p));
    ("name", VString (FullUserPerformance.name p));
    ("role", VString (FullUserPerformance.role p));
    ("avatarUrl", match FullUserPerformance.avatarUrl p with
                  | Some u => VString u
                  | None => VUndefined
                  end);
    ("analysis_summary", VSummary (FullUserPerformance.analysis_summary p));
    ("variables", VVariables (FullUserPerformance.variables p));
    ("final_score", VNumber (FullUserPerformance.final_score p));
    ("advanced", match FullUserPerformance.advanced p with
                 | Some a => VAdvanced a
                 | None => VUndefined
                 end) ].

End JsObject.

(** ** The state the program runs in *)

(** What [fetch] finds: a resolved [Response], of which the sources read
    [ok], [status], [text()] and [json()]. *)
Record Response := { ok : bool; status : nat; text : string;
                     json : Js.Error + ScoreResponse.t }.

Inductive FetchOutcome :=
| Rejected (e : Js.Error)
| Resolved (r : Response).

(** The React state of [App] which [loadData] touches. *)
Record AppState := { users : list User.t;
                     performances : list FullUserPerformance.t;
                     loading : bool;
                     error : option string;
                     apiUrl : string }.

(** Everything the program reads and writes: the module variable of
    [api.ts], the page, the console, what the network answers to a URL, how
    many requests have been sent, the instant at which the answer for a
    member arrives, and the values of [Math.random] with the number of
    those already drawn. *)
Record World := { API_BASE : string;
                  app : AppState;
                  console : list (string * option Js.Error);
                  network : string -> FetchOutcome;
                  requests : nat;
                  arrival : string -> nat;
                  entropy : nat -> Q;
                  drawn : nat }.

Definition Eff (A : Type) : Type := World -> (Js.Error + A) * World.

Definition ret {A} (a : A) : Eff A := fun w => (inr a, w).

Definition bind {A B} (c : Eff A) (k : A -> Eff B) : Eff B :=
  fun w => match c w with
           | (inr a, w') => k a w'
           | (inl e, w') => (inl e, w')
           end.

Definition throw {A} (e : Js.Error) : Eff A := fun w => (inl e, w).

(** [try { c } catch (e) { h e }] *)
Definition try_catch {A} (c : Eff A) (h : Js.Error -> Eff A) : Eff A :=
  fun w => match c w with
           | (inr a, w') => (inr a, w')
           | (inl e, w') => h e w'
           end.

(** [try { c } finally { f }] *)
Definition try_finally {A} (c : Eff A) (f : Eff unit) : Eff A :=
  fun w => match c w with
           | (r, w') => match f w' with
                        | (inr _, w'') => (r, w'')
                        | (inl e, w'') => (inl e, w'')
                        end
           end.

Declare Scope eff_scope.
Delimit Scope eff_scope with eff.
Notation "x <- c ;; k" := (bind c (fun x => k))
  (at level 61, c at next level, right associativity) : eff_scope.
Notation "c ;;; k" := (bind c (fun _ => k))
  (at level 61, right associativity) : eff_scope.
Local Open Scope eff_scope.

Definition modify (f : World -> World) : Eff unit := fun w => (inr tt, f w).

Definition with_app (f : AppState -> AppState) (w : World) : World :=
  {| API_BASE := API_BASE w; app := f (app w); console := console w;
     network := network w; requests := requests w; arrival := arrival w;
     entropy := entropy w; drawn := drawn w |}.

(** [Math.random()]: the next value of the entropy source. *)
Definition Math_random : Eff Q :=
  fun w => (inr (entropy w (drawn w)),
            {| API_BASE := API_BASE w; app := app w; console := console w;
               network := network w; requests := requests w;
               arrival := arrival w; entropy := entropy w;
               drawn := S (drawn w) |}).

(** The world after one more request has left the page. *)
Definition requested (w : World) : World :=
  {| API_BASE := API_BASE w; app := app w; console := console w;
     network := network w; requests := S (requests w); arrival := arrival w;
     entropy := entropy w; drawn := drawn w |}.

(** [await fetch(url, ...)]: the request is counted, the answer is the
    network's. *)
Definition fetch (url : string) : Eff Response :=
  fun w => match network w url with
           | Rejected e => (inl e, requested w)
           | Resolved r => (inr r, requested w)
           end.

(** [console.log(line)] and [console.error(line, e)] *)
Definition console_write (line : string) (e : option Js.Error) : Eff unit :=
  modify (fun w =>
    {| API_BASE := API_BASE w; app := app w;
       console := console w ++ [(line, e)];
       network := network w; requests := requests w; arrival := arrival w;
       entropy := entropy w; drawn := drawn w |}).

(** [List.map] with an effectful body that also receives the index, as
    [Array.prototype.map] passes it. *)
Fixpoint mapi_eff {A B} (f : A -> nat -> Eff B) (i : nat) (l : list A)
  : Eff (list B) :=
  match l with
  | [] => ret []
  | a :: r => b <- f a i ;; bs <- mapi_eff f (S i) r ;; ret (b :: bs)
  end.

(** ** services/api.ts *)

Module Api.

Definition setApiBaseUrl (url : string) : Eff unit :=
  modify (fun w =>
    {| API_BASE := Js.dropTrailingSlash url; app := app w;
       console := console w; network := network w;
       requests := requests w; arrival := arrival w;
       entropy := entropy w; drawn := drawn w |}).

Definition getApiBaseUrl : Eff string := fun w => (inr (API_BASE w), w).

Definition PROVIDED_USER_IDS : list string :=
  [ "alice-dev"; "bob-backend"; "charlie-frontend"; "diana-ml"; "ethan-arch" ].

(** Feature 20: Historical Trend Generator *)
Definition generateHistory (baseScore : Q) : Eff (list HistoryPoint.t) :=
  let months := ["Jan"; "Feb"; "Mar"; "Apr"; "May"; "Jun"] in
  mapi_eff (fun m i =>
    r <- Math_random ;;
    ret {| HistoryPoint.month := m;
           HistoryPoint.score :=
             Js.Math_max 0 (baseScore + (r * 40 - 20)
                            + (inject_Z (Z.of_nat i) * 2)) |})
    0%nat months.

Definition generateAdvancedMetrics (userId : string) (baseScore : Q)
  : Eff AdvancedMetrics.t :=
  let isDev := Js.includes userId "dev" || Js.includes userId "frontend"
               || Js.includes userId "backend" in
  let isArch := Js.includes userId "arch" in
  let isMl := Js.includes userId "ml" in
  history <- generateHistory baseScore ;;
  ret {| AdvancedMetrics.skills :=
           [ {| SkillMetric.name := "Architecture";
                SkillMetric.score := if isArch then 95 else 40;
                SkillMetric.gap := if isArch then 0 else -20 |};
             {| SkillMetric.name := "Code Quality";
                SkillMetric.score := if isDev then 90 else 70;
                SkillMetric.gap := 5 |};
             {| SkillMetric.name := "DevOps";
                SkillMetric.score := if isDev then 60 else 30;
                SkillMetric.gap := -15 |};
             {| SkillMetric.name := "Communication";
                SkillMetric.score := if Js.gt baseScore 120 then 85 else 60;
                SkillMetric.gap := 0 |};
             {| SkillMetric.name := "Innovation";
                SkillMetric.score := if isMl then 95 else 50;
                SkillMetric.gap := 0 |} ];
         AdvancedMetrics.projects :=
           [ {| ProjectContribution.name := "Project Alpha";
                ProjectContribution.impact_value := "$2M";
                ProjectContribution.role := "Lead";
                ProjectContribution.contribution_pct := 45 |};
             {| ProjectContribution.name := "Legacy Migration";
                ProjectContribution.impact_value := "Efficiency";
                ProjectContribution.role := "Contributor";
                ProjectContribution.contribution_pct := 20 |} ];
         AdvancedMetrics.wellness :=
           {| WellnessMetrics.burnout_risk :=
                if Js.gt baseScore 150 then 85 else 30;
              WellnessMetrics.async_efficiency := 8.5;
              WellnessMetrics.timezone_load_balance := "Optimal";
              WellnessMetrics.last_break_taken := "2 hours ago" |};
         AdvancedMetrics.growth :=
           {| CareerGrowth.mentorship_score := if isArch then 9.2 else 4.5;
              CareerGrowth.learning_velocity := 8.8;
              CareerGrowth.promotion_readiness :=
                if Js.gt baseScore 130 then 90 else 60;
              CareerGrowth.next_level_skills :=
                ["Strategic Planning"; "Public Speaking"] |};
         AdvancedMetrics.innovation_score := if isMl then 92 else 65;
         AdvancedMetrics.tech_debt_reduction := if isArch then 450 else 120;
         AdvancedMetrics.customer_impact := Js.Math_floor (baseScore * 10);
         AdvancedMetrics.attrition_risk_prediction :=
           if Js.gt baseScore 160 then "High" else "Low";
         AdvancedMetrics.score_history := history |}.

(** The user record built from one provided id. *)
Definition userOfId (id : string) : User.t :=
  let parts := Js.split "-" id in
  let name := Js.toUpperCase (Js.charAt 0 (nth 0 parts ""))
              ++ Js.slice 1 (nth 0 parts "") in
  let role := if (1 <? List.length parts)%nat
              then Js.toUpperCase (nth 1 parts "") else "MEMBER" in
  {| User.id := id; User.name := name; User.role := role;
     User.avatarUrl := None |}.

Definition fetchUsers : Eff (list User.t) :=
  ret (map userOfId PROVIDED_USER_IDS).

(** The score computed locally "to feed the generator". *)
Definition calculatedScore (v : Variables.t) : Q :=
  (Variables.base_points v * Variables.difficulty_factor v)
  + (Variables.peer_kudos_count v * 1.5)
  - Variables.blocker_penalty_total v.

Definition calculateScore (userId : string) : Eff ScoredResponse.t :=
  try_catch
    (base <- getApiBaseUrl ;;
     response <- fetch (base ++ "/calculate-score/" ++ userId) ;;
     if negb (ok response) then
       let errorText := text response in
       throw (Js.newError ("POST /calculate-score/" ++ userId ++ " failed: "
                           ++ Js.showNat (status response) ++ " - "
                           ++ errorText))
     else
       match json response with
       | inl e => throw e
       | inr data =>
           match ScoreResponse.variables data with
           | None =>
               throw {| Js.name := "TypeError";
                        Js.message := "Cannot read properties of undefined (reading 'base_points')" |}
           | Some variables =>
               advanced <- generateAdvancedMetrics userId
                             (calculatedScore variables) ;;
               ret {| ScoredResponse.analysis_summary :=
                        ScoreResponse.analysis_summary data;
                      ScoredResponse.variables :=
                        ScoreResponse.variables data;
                      ScoredResponse.final_score :=
                        ScoreResponse.final_score data;
                      ScoredResponse.advanced := advanced |}
           end
       end)
    (fun error =>
       if Js.error_eqb error "TypeError" "Failed to fetch" then
         base <- getApiBaseUrl ;;
         throw (Js.newError ("Network Error: Could not connect to " ++ base
                             ++ ". Check CORS or if server is running."))
       else throw error).

End Api.

(** ** components/UserDetail.tsx: the "Basic Formula" *)

Module UserDetail.

Definition difficultyScore (user : FullUserPerformance.t) : Q :=
  let variables := FullUserPerformance.variables user in
  Variables.base_points variables * Variables.difficulty_factor variables.

Definition kudosScore (user : FullUserPerformance.t) : Q :=
  let variables := FullUserPerformance.variables user in
  Variables.peer_kudos_count variables * 1.5.

Definition penaltyScore (user : FullUserPerformance.t) : Q :=
  let variables := FullUserPerformance.variables user in
  Variables.blocker_penalty_total variables.

(** Feature 14, the level badge: [Math.floor(final_score / 50) + 1] *)
Definition level (user : FullUserPerformance.t) : Q :=
  Js.Math_floor (FullUserPerformance.final_score user / 50) + 1.

(** Feature 18: is the "High Retention Risk" badge shown?
    [advanced?.attrition_risk_prediction === 'High'] *)
Definition showsRetentionRisk (user : FullUserPerformance.t) : bool :=
  match FullUserPerformance.advanced user with
  | Some a => String.eqb (AdvancedMetrics.attrition_risk_prediction a) "High"
  | None => false
  end.

End UserDetail.

(** ** components/DashboardOverview.tsx: the burnout alert *)

Module DashboardOverview.

(** [(p.advanced?.wellness.burnout_risk || 0) > 70] *)
Definition isHighBurnout (p : FullUserPerformance.t) : bool :=
  Js.gt (match FullUserPerformance.advanced p with
         | Some a =>
             WellnessMetrics.burnout_risk (AdvancedMetrics.wellness a)
         | None => 0
         end) 70.

Definition highBurnoutRisk (performances : list FullUserPerformance.t)
  : nat :=
  List.length (filter isHighBurnout performances).

(** [performances.reduce((prev, current) => ...)], [null] on no entries. *)
Definition topPerformer (performances : list FullUserPerformance.t)
  : option FullUserPerformance.t :=
  match performances with
  | [] => None
  | first :: rest =>
      Some (fold_left
              (fun prev current =>
                 if Js.gt (FullUserPerformance.final_score prev)
                          (FullUserPerformance.final_score current)
                 then prev else current)
              rest first)
  end.

Definition totalKudos (performances : list FullUserPerformance.t) : Q :=
  fold_left
    (fun acc curr =>
       acc + Variables.peer_kudos_count (FullUserPerformance.variables curr))
    performances 0.

(** One bar of the chart:
    [{ name: p.name.split(' ')[0], score: p.final_score, id: p.id, ...p }] *)
Definition chartEntry (p : FullUserPerformance.t) : JsObject.t :=
  JsObject.literal
    ([ ("name", JsObject.VString
                  (nth 0 (Js.split " " (FullUserPerformance.name p)) ""));
       ("score", JsObject.VNumber (FullUserPerformance.final_score p));
       ("id", JsObject.VString (FullUserPerformance.id p)) ]
     ++ JsObject.ofPerformance p).

(** [e.score] of a bar. *)
Definition scoreOf (e : JsObject.t) : Q :=
  match JsObject.get "score" e with
  | Some (JsObject.VNumber q) => q
  | _ => 0
  end.

(** [performances.map(...).sort((a, b) => b.score - a.score)] *)
Definition chartData (performances : list FullUserPerformance.t)
  : list JsObject.t :=
  Js.sort (fun a b => scoreOf b - scoreOf a) (map chartEntry performances).

End DashboardOverview.

(** ** App.tsx: the batch loader *)

Module App.

Definition setUsers (us : list User.t) : Eff unit :=
  modify (with_app (fun s =>
    {| users := us; performances := performances s; loading := loading s;
       error := error s; apiUrl := apiUrl s |})).

Definition setPerformances (ps : list FullUserPerformance.t) : Eff unit :=
  modify (with_app (fun s =>
    {| users := users s; performances := ps; loading := loading s;
       error := error s; apiUrl := apiUrl s |})).

Definition setLoading (b : bool) : Eff unit :=
  modify (with_app (fun s =>
    {| users := users s; performances := performances s; loading := b;
       error := error s; apiUrl := apiUrl s |})).

Definition setError (e : option string) : Eff unit :=
  modify (with_app (fun s =>
    {| users := users s; performances := performances s;
       loading := loading s; error := e; apiUrl := apiUrl s |})).

Definition getApiUrl : Eff string := fun w => (inr (apiUrl (app w)), w).

(** The score recomputed by the loader for [final_score]. *)
Definition calculatedScore (v : Variables.t) : Q :=
  (Variables.base_points v * Variables.difficulty_factor v)
  + (Variables.peer_kudos_count v * 1.5)
  - Variables.blocker_penalty_total v.

(** The body of [usersList.map(async (user) => ...)] for one member:
    a performance record, or [null] after any failure. *)
Definition scoreUser (user : User.t) : Eff (option FullUserPerformance.t) :=
  try_catch
    (scoreData <- Api.calculateScore (User.id user) ;;
     match ScoredResponse.variables scoreData with
     | None =>
         throw (Js.newError ("Invalid data structure for " ++ User.id user))
     | Some variables =>
         ret (Some {| FullUserPerformance.id := User.id user;
                      FullUserPerformance.name := User.name user;
                      FullUserPerformance.role := User.role user;
                      FullUserPerformance.avatarUrl := User.avatarUrl user;
                      FullUserPerformance.analysis_summary :=
                        ScoredResponse.analysis_summary scoreData;
                      FullUserPerformance.variables := variables;
                      FullUserPerformance.final_score :=
                        calculatedScore variables;
                      FullUserPerformance.advanced :=
                        Some (ScoredResponse.advanced scoreData) |})
     end)
    (fun e =>
       console_write ("Error processing user " ++ User.id user) (Some e) ;;;
       ret None).

(** The tasks of [usersList.map(async ...)], each with its place in the
    roster. *)
Fixpoint indexed {A} (i : nat) (l : list A) : list (nat * A) :=
  match l with
  | [] => []
  | a :: r => (i, a) :: indexed (S i) r
  end.

(** The queue of the tasks in the order in which they finish: a task that
    arrives at instant [t] goes behind the tasks that arrive no later. *)
Fixpoint enqueue {A} (t : nat) (x : A) (queue : list (nat * A))
  : list (nat * A) :=
  match queue with
  | [] => [(t, x)]
  | (t', y) :: r =>
      if (t <? t')%nat then (t, x) :: queue else (t', y) :: enqueue t x r
  end.

Definition byArrival (w : World) (tasks : list (nat * User.t))
  : list (nat * User.t) :=
  map snd
      (fold_left
         (fun queue task => enqueue (arrival w (User.id (snd task))) task queue)
         tasks []).

(** One task run to its end: the place in the roster and what the promise
    resolves to. *)
Definition settle (task : nat * User.t)
  : Eff (nat * option FullUserPerformance.t) :=
  r <- scoreUser (snd task) ;;
  ret (fst task, r).

(** What the promise at place [i] has resolved to. *)
Definition settled (i : nat)
    (done : list (nat * option FullUserPerformance.t))
  : option FullUserPerformance.t :=
  match find (fun d => (fst d =? i)%nat) done with
  | Some d => snd d
  | None => None
  end.

(** [await Promise.all(usersList.map(...))]: all tasks are started at once,
    each runs to its end when its answer arrives, and the results come back
    in the order of the roster. *)
Definition performancePromises (usersList : list User.t)
  : Eff (list (option FullUserPerformance.t)) :=
  order <- (fun w => (inr (byArrival w (indexed 0 usersList)), w)) ;;
  done <- mapi_eff (fun task _ => settle task) 0%nat order ;;
  ret (map (fun task => settled (fst task) done) (indexed 0 usersList)).

(** [.filter(p => p !== null)] *)
Fixpoint nonNull {A} (l : list (option A)) : list A :=
  match l with
  | [] => []
  | Some a :: r => a :: nonNull r
  | None :: r => nonNull r
  end.

(** Step 2 of [loadData], for the roster [usersList]. *)
Definition scoreRoster (usersList : list User.t)
  : Eff (list FullUserPerformance.t) :=
  results <- performancePromises usersList ;;
  ret (nonNull results).

(** [loadData], with the call that fetches the roster as a parameter. *)
Section LoadData.

Variable fetchUsers : Eff (list User.t).

Definition loadDataWith : Eff unit :=
  try_finally
    (try_catch
       (setLoading true ;;;
        setError None ;;;
        url <- getApiUrl ;;
        Api.setApiBaseUrl url ;;;
        usersList <- fetchUsers ;;
        setUsers usersList ;;;
        console_write ("Starting score calculation for "
                       ++ Js.showNat (List.length usersList)
                       ++ " users...") None ;;;
        results <- scoreRoster usersList ;;
        setPerformances results ;;;
        if ((List.length results =? 0) && (0 <? List.length usersList))%nat
        then setError (Some "Connected to User API, but failed to calculate scores. Check backend logs.")
        else ret tt)
       (fun error =>
          console_write "Failed to initialize dashboard" (Some error) ;;;
          setError (Some (Js.message error))))
    (setLoading false).

End LoadData.

Definition loadData : Eff unit := loadDataWith Api.fetchUsers.

(** [handleRetry]: apply the URL of the input, then load again. *)
Definition handleRetry : Eff unit :=
  url <- getApiUrl ;;
  Api.setApiBaseUrl url ;;;
  loadData.

(** [selectedUserId ? performances.find(p => p.id === selectedUserId) : null] *)
Definition selectedUserPerformance (selectedUserId : option string)
    (performances : list FullUserPerformance.t)
  : option FullUserPerformance.t :=
  match selectedUserId with
  | Some id =>
      if Js.truthy id
      then find (fun p => String.eqb (FullUserPerformance.id p) id)
                performances
      else None
  | None => None
  end.

(** What [App] renders in its main area. *)
Inductive View :=
| LoginView
| LoadingView
| ErrorView (message : string)
| DetailView (user : FullUserPerformance.t)
| OverviewView.

Definition render (isLoggedIn : bool) (selectedUserId : option string)
    (s : AppState) : View :=
  if negb isLoggedIn then LoginView
  else if loading s then LoadingView
  else
    match error s with
    | Some message =>
        if Js.truthy message then ErrorView message
        else
          match selectedUserPerformance selectedUserId (performances s) with
          | Some user => DetailView user
          | None => OverviewView
          end
    | None =>
        match selectedUserPerformance selectedUserId (performances s) with
        | Some user => DetailView user
        | None => OverviewView
        end
    end.

End App.

(** ** The formula in binary64

    The same formula on IEEE 754 binary64 numbers, the numbers JavaScript
    computes with; it serves to replay the concrete examples below without
    the idealisation to rationals. *)

Module Binary64.

Definition calculatedScore (base_points difficulty_factor peer_kudos_count
                            blocker_penalty_total : float) : float :=
  ((base_points * difficulty_factor) + (peer_kudos_count * 1.5)
   - blocker_penalty_total)%float.

(** [a > b] and [a === b] on numbers. *)
Definition gt (a b : float) : bool := PrimFloat.ltb b a.
Definition strictEq (a b : float) : bool := PrimFloat.eqb a b.

End Binary64.

(** ** Vocabulary of the properties *)

(** The world after [n] more draws of [Math.random]. *)
Definition advance (n : nat) (w : World) : World :=
  {| API_BASE := API_BASE w; app := app w; console := console w;
     network := network w; requests := requests w; arrival := arrival w;
     entropy := entropy w; drawn := n + drawn w |}.

(** The URL that [calculateScore] requests for a member. *)
Definition scoreUrl (w : World) (userId : string) : string :=
  API_BASE w ++ "/calculate-score/" ++ userId.

(** The answer of the backend that [calculateScore] can use: the body of an
    [ok] response that parses and carries [variables]. *)
Definition backendData (w : World) (userId : string)
  : option (ScoreResponse.t * Variables.t) :=
  match network w (scoreUrl w userId) with
  | Resolved r =>
      if ok r then
        match json r with
        | inr data =>
            match ScoreResponse.variables data with
            | Some v => Some (data, v)
            | None => None
            end
        | inl _ => None
        end
      else None
  | Rejected _ => None
  end.

Definition scorable (w : World) (userId : string) : bool :=
  match backendData w userId with
  | Some _ => true
  | None => false
  end.


Definition withPenalty (v : Variables.t) (B : Q) : Variables.t :=
  {| Variables.base_points := Variables.base_points v;
     Variables.difficulty_factor := Variables.difficulty_factor v;
     Variables.peer_kudos_count := Variables.peer_kudos_count v;
     Variables.blocker_penalty_total := B |}.



Definition isSmallHalf (q : Q) : Prop :=
  exists k : Z, q * 2 == inject_Z k /\ (Z.abs k <= 2 ^ 42)%Z.

Definition isCount (q : Q) : Prop :=
  exists n : nat, q == inject_Z (Z.of_nat n).

(** The base work of a scored member and of a team. *)
Definition teamBaseWork (ps : list FullUserPerformance.t) : Q :=
  fold_right (fun p acc => UserDetail.difficultyScore p + acc) 0 ps.

(** The burnout risk displayed for a scored member. *)
Definition burnoutOf (p : FullUserPerformance.t) : Q :=
  match FullUserPerformance.advanced p with
  | Some a => WellnessMetrics.burnout_risk (AdvancedMetrics.wellness a)
  | None => 0
  end.

(** Two worlds with the same endpoint, backend and page: scoring changes
    nothing else than the console, the number of requests and the number of
    draws. *)
Definition sameBackend (w w' : World) : Prop :=
  API_BASE w' = API_BASE w /\ network w' = network w /\ app w' = app w.

(** The world in which [loadData] scores the roster: the endpoint is the
    page's [apiUrl] without its trailing slash. *)
Definition pointed (w : World) : World :=
  {| API_BASE := Js.dropTrailingSlash (apiUrl (app w)); app := app w;
     console := console w; network := network w;
     requests := requests w; arrival := arrival w; entropy := entropy w;
     drawn := drawn w |}.

(** The message shown when not a single member could be scored. *)
Definition noScoresMessage : string :=
  "Connected to User API, but failed to calculate scores. Check backend logs.".

(** The console lines that a batch run writes for the members it could not
    score. *)
Definition errorLines (w : World) (roster : list User.t) : list string :=
  map (fun user => "Error processing user " ++ User.id user)
      (filter (fun user => negb (scorable w (User.id user))) roster).

(** The line that opens a batch run. *)
Definition startLine (roster : list User.t) : string :=
  "Starting score calculation for " ++ Js.showNat (List.length roster)
  ++ " users...".

(** What [scoreUser] leaves in the result list for a member. *)
Definition scoredAs (w : World) (user : User.t)
    (r : option FullUserPerformance.t) : Prop :=
  match backendData w (User.id user) with
  | Some (data, v) =>
      exists a,
        r = Some {| FullUserPerformance.id := User.id user;
                    FullUserPerformance.name := User.name user;
                    FullUserPerformance.role := User.role user;
                    FullUserPerformance.avatarUrl := User.avatarUrl user;
                    FullUserPerformance.analysis_summary :=
                      ScoreResponse.analysis_summary data;
                    FullUserPerformance.variables := v;
                    FullUserPerformance.final_score := App.calculatedScore v;
                    FullUserPerformance.advanced := Some a |}
        /\ WellnessMetrics.burnout_risk (AdvancedMetrics.wellness a)
           = (if Js.gt (Api.calculatedScore v) 150 then 85 else 30)
        /\ AdvancedMetrics.attrition_risk_prediction a
           = (if Js.gt (Api.calculatedScore v) 160 then "High" else "Low")%string
  | None => r = None
  end.

(** ** Concrete worlds used by the examples *)

(** The scenario of the specification. *)
Definition scenario : Variables.t :=
  {| Variables.base_points := 100; Variables.difficulty_factor := 1.2;
     Variables.peer_kudos_count := 10;
     Variables.blocker_penalty_total := 5 |}.

Definition noActivity : Variables.t :=
  {| Variables.base_points := 0; Variables.difficulty_factor := 0;
     Variables.peer_kudos_count := 0;
     Variables.blocker_penalty_total := 0 |}.

(** A member with base points alone: difficulty 1, no kudos, no penalty. *)
Definition baseOnly (b : Q) : Variables.t :=
  {| Variables.base_points := b; Variables.difficulty_factor := 1;
     Variables.peer_kudos_count := 0;
     Variables.blocker_penalty_total := 0 |}.

Definition summary0 : AnalysisSummary.t :=
  {| AnalysisSummary.difficulty_rationale := "Routine maintenance";
     AnalysisSummary.kudos_evidence := [];
     AnalysisSummary.penalty_evidence := [] |}.

(** A [200] answer of the backend carrying the variables [v]. *)
Definition answer (v : Variables.t) : FetchOutcome :=
  Resolved {| ok := true; status := 200; text := "";
              json := inr {| ScoreResponse.analysis_summary := summary0;
                             ScoreResponse.variables := Some v;
                             ScoreResponse.final_score := None |} |}.

(** What [fetch] rejects with when the server cannot be reached. *)
Definition failedToFetch : FetchOutcome :=
  Rejected {| Js.name := "TypeError"; Js.message := "Failed to fetch" |}.

Definition page0 : AppState :=
  {| users := []; performances := []; loading := true; error := None;
     apiUrl := "http://localhost:8000" |}.

Definition world (net : string -> FetchOutcome) (ent : nat -> Q) : World :=
  {| API_BASE := "http://localhost:8000"; app := page0; console := [];
     network := net; requests := 0; arrival := fun _ => 0%nat;
     entropy := ent; drawn := 0 |}.

(** A backend that answers the scenario for every member. *)
Definition backendUp : string -> FetchOutcome := fun _ => answer scenario.

(** The same backend, unreachable for one member. *)
Definition bobDown : string -> FetchOutcome :=
  fun url =>
    if String.eqb url "http://localhost:8000/calculate-score/bob-backend"
    then failedToFetch else answer scenario.

(** Two runs over the same backend that differ in nothing but the values
    [Math.random] happens to return. *)
Definition run1 : World := world backendUp (fun _ => 0).
Definition run2 : World := world backendUp (fun _ => 0.5).


(** A backend that cannot be reached for the first two members. *)
Definition firstTwoDown : string -> FetchOutcome :=
  fun url =>
    if String.eqb url "http://localhost:8000/calculate-score/alice-dev"
    then failedToFetch
    else if String.eqb url "http://localhost:8000/calculate-score/bob-backend"
    then failedToFetch
    else answer scenario.

(** The same world with other instants of arrival. *)
Definition arriving (f : string -> nat) (w : World) : World :=
  {| API_BASE := API_BASE w; app := app w; console := console w;
     network := network w; requests := requests w; arrival := f;
     entropy := entropy w; drawn := drawn w |}.

(** The answer for the first member arrives last. *)
Definition aliceLast : string -> nat :=
  fun id => if String.eqb id "alice-dev" then 2%nat else 1%nat.

(** A roster of ten in which [u0] holds 70 of the 100 points of base work. *)
Definition roster10 : list User.t :=
  map Api.userOfId
    ["u0"; "u1"; "u2"; "u3"; "u4"; "u5"; "u6"; "u7"; "u8"; "u9"].

Definition backend10 : string -> FetchOutcome :=
  fun url =>
    if String.eqb url "http://localhost:8000/calculate-score/u0"
    then answer (baseOnly 70)
    else if String.eqb url "http://localhost:8000/calculate-score/u9"
    then answer (baseOnly 6)
    else answer (baseOnly 3).

Definition team10 : list FullUserPerformance.t :=
  match App.scoreRoster roster10 (world backend10 (fun _ => 0.5)) with
  | (inr ps, _) => ps
  | (inl _, _) => []
  end.


(** A scored member whose backend reported a negative penalty total. *)
Definition negativePenalty : Variables.t :=
  {| Variables.base_points := 100; Variables.difficulty_factor := 1.2;
     Variables.peer_kudos_count := 10;
     Variables.blocker_penalty_total := -5 |}.

Definition scoredWith (v : Variables.t) : option FullUserPerformance.t :=
  match App.scoreUser (Api.userOfId "alice-dev")
          (world (fun _ => answer v) (fun _ => 0.5)) with
  | (inr p, _) => p
  | (inl _, _) => None
  end.

(** A backend that answers 404 to every request. *)
Definition notFound : string -> FetchOutcome :=
  fun _ => Resolved {| ok := false; status := 404; text := "Not Found";
                       json := inl {| Js.name := "SyntaxError";
                                      Js.message := "Unexpected token" |} |}.

(** The points of a history, from the draws [Math.random] returns. *)
Definition historyFrom (baseScore : Q) (draw : nat -> Q)
  : list HistoryPoint.t :=
  map (fun mi =>
         {| HistoryPoint.month := fst mi;
            HistoryPoint.score :=
              Js.Math_max 0 (baseScore + (draw (snd mi) * 40 - 20)
                             + (inject_Z (Z.of_nat (snd mi)) * 2)) |})
      [ ("Jan", 0%nat); ("Feb", 1%nat); ("Mar", 2%nat);
        ("Apr", 3%nat); ("May", 4%nat); ("Jun", 5%nat) ].

(** The first letter in upper case, the rest as it is. *)
Definition capitalised (s : string) : string :=
  match s with
  | EmptyString => EmptyString
  | String c r => String (Js.upper_ascii c) r
  end.

(** A scored member as the loader builds it, without advanced metrics. *)
Definition member (id : string) (v : Variables.t) : FullUserPerformance.t :=
  {| FullUserPerformance.id := id; FullUserPerformance.name := id;
     FullUserPerformance.role := "MEMBER";
     FullUserPerformance.avatarUrl := None;
     FullUserPerformance.analysis_summary := summary0;
     FullUserPerformance.variables := v;
     FullUserPerformance.final_score := App.calculatedScore v;
     FullUserPerformance.advanced := None |}.

(** An entry without its advanced metrics. *)
Definition withoutAdvanced (p : FullUserPerformance.t) : FullUserPerformance.t :=
  {| FullUserPerformance.id := FullUserPerformance.id p;
     FullUserPerformance.name := FullUserPerformance.name p;
     FullUserPerformance.role := FullUserPerformance.role p;
     FullUserPerformance.avatarUrl := FullUserPerformance.avatarUrl p;
     FullUserPerformance.analysis_summary :=
       FullUserPerformance.analysis_summary p;
     FullUserPerformance.variables := FullUserPerformance.variables p;
     FullUserPerformance.final_score := FullUserPerformance.final_score p;
     FullUserPerformance.advanced := None |}.

(** ** Numbers and the monad *)

Lemma gt_spec (a b : Q) : Js.gt a b = true <-> b < a.
Proof.
  unfold Js.gt. rewrite negb_true_iff, <- not_true_iff_false, Qle_bool_iff.
  split; [apply Qnot_le_lt | apply Qlt_not_le].
Qed.

Lemma gt_false (a b : Q) : Js.gt a b = false <-> a <= b.
Proof.
  unfold Js.gt. rewrite negb_false_iff. apply Qle_bool_iff.
Qed.

Lemma sameBackend_trans w1 w2 w3 :
  sameBackend w1 w2 -> sameBackend w2 w3 -> sameBackend w1 w3.
Proof.
  intros (A1 & N1 & P1) (A2 & N2 & P2).
  repeat split; congruence.
Qed.

Lemma sameBackend_data w w' userId :
  sameBackend w w' -> backendData w' userId = backendData w userId.
Proof.
  intros (A & N & _). unfold backendData, scoreUrl. now rewrite A, N.
Qed.

Lemma sameBackend_scorable w w' userId :
  sameBackend w w' -> scorable w' userId = scorable w userId.
Proof.
  intros H. unfold scorable. now rewrite (sameBackend_data _ _ _ H).
Qed.

(** ** services/api.ts, run *)

(** [generateHistory] always returns: six points, six draws. *)
Lemma generateHistory_run (baseScore : Q) (w : World) :
  exists h, Api.generateHistory baseScore w = (inr h, advance 6 w)
            /\ List.length h = 6%nat.
Proof.
  eexists. split.
  - cbv [Api.generateHistory mapi_eff bind ret Math_random
         API_BASE app console network entropy drawn advance Nat.add].
    reflexivity.
  - reflexivity.
Qed.

(** [generateAdvancedMetrics] always returns. *)
Lemma generateAdvancedMetrics_run (userId : string) (baseScore : Q) (w : World) :
  exists m, Api.generateAdvancedMetrics userId baseScore w
            = (inr m, advance 6 w)
    /\ WellnessMetrics.burnout_risk (AdvancedMetrics.wellness m)
       = (if Js.gt baseScore 150 then 85 else 30)
    /\ AdvancedMetrics.attrition_risk_prediction m
       = (if Js.gt baseScore 160 then "High" else "Low")%string
    /\ AdvancedMetrics.customer_impact m = Js.Math_floor (baseScore * 10).
Proof.
  destruct (generateHistory_run baseScore w) as (h & Hh & _).
  unfold Api.generateAdvancedMetrics, bind. rewrite Hh.
  eexists. split; [reflexivity|]. repeat split.
Qed.

(** [calculateScore] resolves exactly when the backend answers [ok] with a
    body that parses and carries [variables]. *)
Lemma calculateScore_ok (userId : string) (w : World) data v :
  backendData w userId = Some (data, v) ->
  exists a,
    Api.calculateScore userId w
    = (inr {| ScoredResponse.analysis_summary :=
                ScoreResponse.analysis_summary data;
              ScoredResponse.variables := Some v;
              ScoredResponse.final_score := ScoreResponse.final_score data;
              ScoredResponse.advanced := a |}, advance 6 (requested w))
    /\ WellnessMetrics.burnout_risk (AdvancedMetrics.wellness a)
       = (if Js.gt (Api.calculatedScore v) 150 then 85 else 30)
    /\ AdvancedMetrics.attrition_risk_prediction a
       = (if Js.gt (Api.calculatedScore v) 160 then "High" else "Low")%string.
Proof.
  unfold backendData, scoreUrl. intros H.
  unfold Api.calculateScore, try_catch, bind, Api.getApiBaseUrl, fetch.
  destruct (network w _) as [e|r]; [discriminate|].
  destruct (ok r); [|discriminate]. cbn [negb].
  destruct (json r) as [e|data']; [discriminate|].
  destruct (ScoreResponse.variables data') as [v'|] eqn:Hv; [|discriminate].
  inversion H; subst data' v'; clear H.
  destruct (generateAdvancedMetrics_run userId (Api.calculatedScore v)
              (requested w)) as (a & Ha & Hb & Hr & _).
  rewrite Ha. exists a. auto.
Qed.

Lemma calculateScore_fails (userId : string) (w : World) :
  backendData w userId = None ->
  exists e, Api.calculateScore userId w = (inl e, requested w).
Proof.
  unfold backendData, scoreUrl. intros H.
  unfold Api.calculateScore, try_catch, bind, Api.getApiBaseUrl, fetch, throw.
  destruct (network w _) as [e|r].
  - destruct (Js.error_eqb e _ _); eexists; reflexivity.
  - destruct (ok r); cbn [negb].
    + destruct (json r) as [e|data].
      * destruct (Js.error_eqb e _ _); eexists; reflexivity.
      * destruct (ScoreResponse.variables data); [discriminate|].
        eexists; reflexivity.
    + eexists; reflexivity.
Qed.

(** ** App.tsx, run *)

(** One member: a record after six draws, or [null] after one console
    line; never a thrown error. *)
Lemma scoreUser_run (user : User.t) (w : World) :
  exists r w', App.scoreUser user w = (inr r, w')
               /\ sameBackend w w' /\ scoredAs w user r
               /\ map fst (console w')
                  = (map fst (console w) ++ errorLines w [user])%list.
Proof.
  unfold errorLines, scorable, scoredAs, App.scoreUser, try_catch, bind.
  cbn [filter].
  destruct (backendData w (User.id user)) as [[data v]|] eqn:Hd.
  - destruct (calculateScore_ok _ _ _ _ Hd) as (a & Hc & Hb & Hr).
    rewrite Hc. cbn [ScoredResponse.variables].
    eexists; eexists. split; [reflexivity|].
    split; [repeat split|].
    split; [exists a; cbn; auto|].
    cbn. now rewrite app_nil_r.
  - destruct (calculateScore_fails _ _ Hd) as (e & Hc).
    rewrite Hc. eexists; eexists. split; [reflexivity|].
    split; [repeat split|]. split; [reflexivity|].
    cbn. now rewrite map_app.
Qed.

Lemma scoredAs_sameBackend w w' user r :
  sameBackend w w' -> scoredAs w' user r -> scoredAs w user r.
Proof.
  intros H. unfold scoredAs. now rewrite (sameBackend_data _ _ _ H).
Qed.

Lemma errorLines_sameBackend w w' roster :
  sameBackend w w' -> errorLines w' roster = errorLines w roster.
Proof.
  intros H. unfold errorLines. f_equal. apply filter_ext.
  intros user. now rewrite (sameBackend_scorable _ _ _ H).
Qed.

Lemma errorLines_cons w user rest :
  errorLines w (user :: rest)
  = (errorLines w [user] ++ errorLines w rest)%list.
Proof.
  unfold errorLines. cbn [filter].
  destruct (negb (scorable w (User.id user))); reflexivity.
Qed.

Lemma errorLines_permutation w (l l' : list User.t) :
  Permutation l l' -> Permutation (errorLines w l) (errorLines w l').
Proof.
  intros H. unfold errorLines. apply Permutation_map.
  induction H as [|x l l' _ IH|x y l|l l' l'' _ IH1 _ IH2]; cbn [filter].
  - constructor.
  - destruct (negb (scorable w (User.id x))); [now constructor|exact IH].
  - destruct (negb (scorable w (User.id x)));
      destruct (negb (scorable w (User.id y)));
      try reflexivity. apply perm_swap.
  - now rewrite IH1.
Qed.

(** The tasks, run to their ends one after another in a given order. *)
Lemma settle_all (order : list (nat * User.t)) :
  forall (i : nat) (w : World),
  exists done w',
    mapi_eff (fun task _ => App.settle task) i order w = (inr done, w')
    /\ sameBackend w w'
    /\ Forall2 (fun task d => fst d = fst task
                              /\ scoredAs w (snd task) (snd d)) order done
    /\ map fst (console w')
       = (map fst (console w) ++ errorLines w (map snd order))%list.
Proof.
  induction order as [|task rest IH]; intros i w.
  - exists [], w. repeat split; [constructor|].
    cbn. now rewrite app_nil_r.
  - destruct (scoreUser_run (snd task) w)
      as (r & w1 & Hrun & Hsame & Hr & Hc).
    destruct (IH (S i) w1) as (done & w2 & Hrest & Hsame2 & Hdone & Hc2).
    exists ((fst task, r) :: done), w2. cbn [mapi_eff]. unfold bind at 1.
    unfold App.settle at 1. unfold bind at 1. rewrite Hrun.
    unfold ret at 1. unfold bind at 1. rewrite Hrest.
    split; [reflexivity|]. split; [|split].
    + eapply sameBackend_trans; eassumption.
    + constructor; [split; [reflexivity|assumption]|].
      eapply Forall2_impl; [|exact Hdone].
      intros t d (Hi & Hs). split; [exact Hi|].
      now apply (scoredAs_sameBackend _ _ _ _ Hsame).
    + cbn [map]. rewrite Hc2, Hc, (errorLines_sameBackend _ _ _ Hsame).
      now rewrite (errorLines_cons w (snd task) (map snd rest)), app_assoc.
Qed.

(** The order of arrival is an order of the tasks: none is lost, none runs
    twice. *)
Lemma enqueue_permutation {A} (t : nat) (x : A) (queue : list (nat * A)) :
  Permutation (App.enqueue t x queue) ((t, x) :: queue).
Proof.
  induction queue as [|[t' y] r IH]; [reflexivity|].
  cbn [App.enqueue]. destruct (t <? t')%nat; [reflexivity|].
  rewrite IH. apply perm_swap.
Qed.

Lemma byArrival_permutation (w : World) (tasks : list (nat * User.t)) :
  Permutation (App.byArrival w tasks) tasks.
Proof.
  unfold App.byArrival.
  assert (H : forall queue,
             Permutation
               (map snd
                  (fold_left
                     (fun queue task =>
                        App.enqueue (arrival w (User.id (snd task))) task queue)
                     tasks queue))
               (tasks ++ map snd queue)).
  { induction tasks as [|task rest IH]; intros queue; [reflexivity|].
    cbn [fold_left]. rewrite IH.
    rewrite (Permutation_map snd (enqueue_permutation _ task queue)).
    cbn [map snd]. symmetry. apply Permutation_middle. }
  rewrite (H []). cbn [map]. now rewrite app_nil_r.
Qed.

Lemma indexed_snd {A} (l : list A) :
  forall i, map snd (App.indexed i l) = l.
Proof.
  induction l as [|a r IH]; intros i; [reflexivity|].
  cbn. now rewrite IH.
Qed.

Lemma indexed_fst {A} (l : list A) :
  forall i, map fst (App.indexed i l) = seq i (List.length l).
Proof.
  induction l as [|a r IH]; intros i; [reflexivity|].
  cbn. now rewrite IH.
Qed.

(** Each promise resolves to what its own task produced. *)
Lemma settled_own (P : User.t -> option FullUserPerformance.t -> Prop)
    (order : list (nat * User.t))
    (done : list (nat * option FullUserPerformance.t)) :
  Forall2 (fun task d => fst d = fst task /\ P (snd task) (snd d)) order done ->
  NoDup (map fst order) ->
  forall task, In task order -> P (snd task) (App.settled (fst task) done).
Proof.
  induction 1 as [|task0 d order done (Hi & Hp) _ IH]; intros Hnd task Hin.
  - destruct Hin.
  - cbn [map] in Hnd. inversion Hnd as [|? ? Hnotin Hnd']; subst.
    unfold App.settled. cbn [find]. destruct Hin as [<-|Hin].
    + rewrite Hi, Nat.eqb_refl. exact Hp.
    + destruct (Nat.eqb_spec (fst d) (fst task)) as [E|E].
      * exfalso. apply Hnotin. rewrite <- Hi, E. now apply in_map.
      * now apply IH.
Qed.

Lemma Forall2_map_both {A B C} (P : B -> C -> Prop) (f : A -> B) (g : A -> C)
    (l : list A) :
  (forall x, In x l -> P (f x) (g x)) -> Forall2 P (map f l) (map g l).
Proof.
  induction l as [|x l IH]; intros H; cbn; constructor.
  - apply H. now left.
  - apply IH. intros y Hy. apply H. now right.
Qed.

(** The whole roster, whatever the order of arrival: the results come in
    roster order, the console lines in the order of arrival. *)
Lemma performancePromises_run (roster : list User.t) (w : World) :
  exists rs w',
    App.performancePromises roster w = (inr rs, w')
    /\ sameBackend w w' /\ Forall2 (scoredAs w) roster rs
    /\ exists lines,
         map fst (console w') = (map fst (console w) ++ lines)%list
         /\ Permutation lines (errorLines w roster).
Proof.
  pose proof (byArrival_permutation w (App.indexed 0 roster)) as Hperm.
  destruct (settle_all (App.byArrival w (App.indexed 0 roster)) 0 w)
    as (done & w' & Hrun & Hsame & Hdone & Hc).
  exists (map (fun task => App.settled (fst task) done) (App.indexed 0 roster)),
    w'.
  unfold App.performancePromises. unfold bind at 1. unfold bind at 1.
  rewrite Hrun. split; [reflexivity|]. split; [exact Hsame|]. split.
  - rewrite <- (indexed_snd roster 0) at 1.
    apply Forall2_map_both. intros task Hin.
    apply (settled_own (scoredAs w) _ _ Hdone).
    + apply (Permutation_NoDup (l := map fst (App.indexed 0 roster))).
      * symmetry. now apply Permutation_map.
      * rewrite indexed_fst. apply seq_NoDup.
    + eapply Permutation_in; [symmetry; exact Hperm|exact Hin].
  - eexists. split; [exact Hc|].
    rewrite <- (indexed_snd roster 0) at 2.
    apply errorLines_permutation. now apply Permutation_map.
Qed.

Lemma scoreRoster_run (roster : list User.t) (w : World) :
  exists rs w',
    App.scoreRoster roster w = (inr (App.nonNull rs), w')
    /\ sameBackend w w' /\ Forall2 (scoredAs w) roster rs
    /\ exists lines,
         map fst (console w') = (map fst (console w) ++ lines)%list
         /\ Permutation lines (errorLines w roster).
Proof.
  destruct (performancePromises_run roster w)
    as (rs & w' & H & Hs & Hrs & Hc).
  exists rs, w'. unfold App.scoreRoster, bind.
  rewrite H. auto.
Qed.

(** The members that survive the filter are the scorable ones, in roster
    order. *)
Lemma nonNull_ids w roster rs :
  Forall2 (scoredAs w) roster rs ->
  map FullUserPerformance.id (App.nonNull rs)
  = filter (scorable w) (map User.id roster).
Proof.
  induction 1 as [|user r roster rs Hr _ IH]; [reflexivity|].
  cbn [map filter]. unfold scoredAs in Hr. unfold scorable at 1.
  destruct (backendData w (User.id user)) as [[data v]|].
  - destruct Hr as (a & -> & _). cbn. now rewrite IH.
  - subst r. exact IH.
Qed.

(** Every surviving record carries the raw score of its own variables and
    the two-valued indicators computed from that score. *)
Lemma nonNull_scores w roster rs :
  Forall2 (scoredAs w) roster rs ->
  Forall (fun p =>
            FullUserPerformance.final_score p
            = App.calculatedScore (FullUserPerformance.variables p)
            /\ exists a,
                 FullUserPerformance.advanced p = Some a
                 /\ WellnessMetrics.burnout_risk (AdvancedMetrics.wellness a)
                    = (if Js.gt (FullUserPerformance.final_score p) 150
                       then 85 else 30)
                 /\ AdvancedMetrics.attrition_risk_prediction a
                    = (if Js.gt (FullUserPerformance.final_score p) 160
                       then "High" else "Low")%string)
         (App.nonNull rs).
Proof.
  induction 1 as [|user r roster rs Hr _ IH]; [constructor|].
  unfold scoredAs in Hr.
  destruct (backendData w (User.id user)) as [[data v]|].
  - destruct Hr as (a & -> & Hb & Ha). cbn [App.nonNull].
    constructor; [|exact IH]. cbn. split; [reflexivity|].
    exists a. split; [reflexivity|]. split; [exact Hb|exact Ha].
  - subst r. exact IH.
Qed.

(** Every surviving record carries the variables that the backend
    answered for its member. *)
Lemma nonNull_backend w roster rs :
  Forall2 (scoredAs w) roster rs ->
  Forall (fun p =>
            exists data,
              backendData w (FullUserPerformance.id p)
              = Some (data, FullUserPerformance.variables p))
         (App.nonNull rs).
Proof.
  induction 1 as [|user r roster rs Hr _ IH]; [constructor|].
  unfold scoredAs in Hr.
  destruct (backendData w (User.id user)) as [[data v]|] eqn:E.
  - destruct Hr as (a & -> & _). cbn [App.nonNull].
    constructor; [|exact IH]. cbn. now exists data.
  - subst r. exact IH.
Qed.

Lemma gt_compat (a a' b : Q) : a == a' -> Js.gt a b = Js.gt a' b.
Proof. intros H. unfold Js.gt. now rewrite H. Qed.

(** [loadData] for a roster: it never throws, leaves [loading] off, and sets
    the error message only when nobody could be scored. *)
Lemma loadDataWith_run (roster : list User.t) (w : World) :
  exists rs w',
    App.loadDataWith (ret roster) w = (inr tt, w')
    /\ Forall2 (scoredAs (pointed w)) roster rs
    /\ users (app w') = roster
    /\ performances (app w') = App.nonNull rs
    /\ loading (app w') = false
    /\ error (app w')
       = (if ((List.length (App.nonNull rs) =? 0)
              && (0 <? List.length roster))%nat
          then Some noScoresMessage else None)
    /\ exists lines,
         map fst (console w')
         = (map fst (console w) ++ startLine roster :: lines)%list
         /\ Permutation lines (errorLines (pointed w) roster).
Proof.
  unfold App.loadDataWith, try_finally, try_catch.
  unfold bind at 1. unfold App.setLoading at 1, modify at 1.
  unfold bind at 1. unfold App.setError at 1, modify at 1.
  unfold bind at 1. unfold App.getApiUrl at 1.
  unfold bind at 1. unfold Api.setApiBaseUrl at 1, modify at 1.
  unfold bind at 1. unfold ret at 1.
  unfold bind at 1. unfold App.setUsers at 1, modify at 1.
  unfold bind at 1. unfold console_write at 1, modify at 1.
  unfold bind at 1.
  match goal with
  | |- context [App.scoreRoster roster ?wx] =>
      destruct (scoreRoster_run roster wx)
        as (rs & w1 & Hrun & Hsame & Hrs & lines & Hc & Hperm)
  end.
  rewrite Hrun. destruct Hsame as (HA & HN & HP).
  cbn [console] in Hc. rewrite map_app, <- app_assoc in Hc.
  exists rs. unfold App.setPerformances, App.setError, App.setLoading,
    modify, with_app, ret.
  destruct ((List.length (App.nonNull rs) =? 0)
            && (0 <? List.length roster))%nat;
    eexists; (split; [reflexivity|]); cbn; rewrite HP; cbn;
    (split; [exact Hrs|]); (split; [reflexivity|]); (split; [reflexivity|]);
    (split; [reflexivity|]); (split; [reflexivity|]);
    exists lines; (split; [exact Hc|exact Hperm]).
Qed.

(** [loadData] is [loadDataWith] on the five provided members. *)
Lemma loadData_roster :
  App.loadData
  = App.loadDataWith (ret (map Api.userOfId Api.PROVIDED_USER_IDS)).
Proof. reflexivity. Qed.

(** The two copies of the formula, in [api.ts] and in [App.tsx], agree. *)
Lemma calculatedScore_agree (v : Variables.t) :
  App.calculatedScore v = Api.calculatedScore v.
Proof. reflexivity. Qed.

Lemma calculatedScore_eq (v : Variables.t) :
  Api.calculatedScore v
  == Variables.base_points v * Variables.difficulty_factor v
     + Variables.peer_kudos_count v * 1.5
     - Variables.blocker_penalty_total v.
Proof. reflexivity. Qed.

(** ** The scenario of the specification *)

(** C1, as the specification states it, fails: the kudos of the scenario
    are not neutralised by any coefficient, so the score is not 115. *)
Lemma scenario_score_is_not_115 :
  ~ (Api.calculatedScore scenario == 115).
Proof. intros H. vm_compute in H. discriminate H. Qed.

(** C1, as the code has it: for base_points = 100, difficulty_factor = 1.2,
    peer_kudos_count = 10 and blocker_penalty_total = 5 the score computed by
    [calculateScore] and recomputed by [loadData] is
    100 * 1.2 + 10 * 1.5 - 5 = 130; the code has no coefficients alpha, beta,
    gamma, delta.  A run of [loadData] against a backend that answers the
    scenario for every member stores 130 for each of the five. *)
Theorem scenario_score_is_130 :
  Api.calculatedScore scenario == 130
  /\ App.calculatedScore scenario == 130
  /\ Forall2 (fun p s => FullUserPerformance.final_score p == s)
       (performances
          (app (snd (App.loadData (world backendUp (fun _ => 0.5))))))
       [130; 130; 130; 130; 130].
Proof.
  split; [reflexivity|]. split; [reflexivity|].
  vm_compute. repeat constructor.
Qed.

(** ** Kudos *)






(** ** Reproducibility *)

(** C3: [calculateScore] is not a function of the member and of the fetched
    variables.  Its [score_history] is built from [Math.random]: over the
    same backend answer, a run in which [Math.random] returns 0 and a run in
    which it returns 0.5 give the histories 110, 112, ..., 120 and
    130, 132, ..., 140, hence two different results. *)
Theorem calculateScore_depends_on_Math_random :
  exists r1 r2 w1 w2,
    Api.calculateScore "alice-dev" run1 = (inr r1, w1)
    /\ Api.calculateScore "alice-dev" run2 = (inr r2, w2)
    /\ API_BASE run1 = API_BASE run2
    /\ network run1 = network run2
    /\ ScoredResponse.variables r1 = ScoredResponse.variables r2
    /\ Forall2 Qeq
         (map HistoryPoint.score
            (AdvancedMetrics.score_history (ScoredResponse.advanced r1)))
         [110; 112; 114; 116; 118; 120]
    /\ Forall2 Qeq
         (map HistoryPoint.score
            (AdvancedMetrics.score_history (ScoredResponse.advanced r2)))
         [130; 132; 134; 136; 138; 140]
    /\ r1 <> r2.
Proof.
  do 4 eexists.
  split; [vm_compute; reflexivity|].
  split; [vm_compute; reflexivity|].
  split; [reflexivity|]. split; [reflexivity|]. split; [reflexivity|].
  split; [repeat constructor|]. split; [repeat constructor|].
  intros H.
  apply (f_equal (fun r =>
           map HistoryPoint.score
             (AdvancedMetrics.score_history (ScoredResponse.advanced r)))) in H.
  vm_compute in H. discriminate H.
Qed.

(** Everything but the history is reproducible: over the same endpoint and
    backend two runs agree on the variables and on the two indicators that
    are derived from the score. *)
Lemma calculateScore_reproducible_part (userId : string) (w1 w2 : World)
    r1 r2 w1' w2' :
  API_BASE w1 = API_BASE w2 -> network w1 = network w2 ->
  Api.calculateScore userId w1 = (inr r1, w1') ->
  Api.calculateScore userId w2 = (inr r2, w2') ->
  ScoredResponse.variables r1 = ScoredResponse.variables r2
  /\ ScoredResponse.analysis_summary r1 = ScoredResponse.analysis_summary r2
  /\ WellnessMetrics.burnout_risk
       (AdvancedMetrics.wellness (ScoredResponse.advanced r1))
     = WellnessMetrics.burnout_risk
         (AdvancedMetrics.wellness (ScoredResponse.advanced r2))
  /\ AdvancedMetrics.attrition_risk_prediction (ScoredResponse.advanced r1)
     = AdvancedMetrics.attrition_risk_prediction (ScoredResponse.advanced r2).
Proof.
  intros HA HN H1 H2.
  assert (Hd : backendData w1 userId = backendData w2 userId).
  { unfold backendData, scoreUrl. now rewrite HA, HN. }
  destruct (backendData w1 userId) as [[data v]|] eqn:Hd1.
  - symmetry in Hd.
    destruct (calculateScore_ok _ _ _ _ Hd1) as (a1 & E1 & B1 & R1).
    destruct (calculateScore_ok _ _ _ _ Hd) as (a2 & E2 & B2 & R2).
    rewrite E1 in H1. rewrite E2 in H2.
    inversion H1; inversion H2; subst. cbn.
    rewrite B1, B2, R1, R2. auto.
  - destruct (calculateScore_fails _ _ Hd1) as (e & E1).
    rewrite E1 in H1. discriminate H1.
Qed.

(** ** Failures inside a batch *)

(** C4, as the specification states it, fails: when the backend cannot be
    reached for bob-backend, the result set is not one entry per roster
    member. *)
Lemma unreachable_member_is_dropped :
  ~ (map FullUserPerformance.id
       (performances (app (snd (App.loadData (world bobDown (fun _ => 0.5))))))
     = map User.id
         (users (app (snd (App.loadData (world bobDown (fun _ => 0.5))))))).
Proof. intros H. vm_compute in H. discriminate H. Qed.

(** C4, as the code has it: for every roster the batch run never throws and
    produces, in roster order, exactly the members whose own computation
    succeeded; a member whose computation fails is left out of the result
    set (its promise resolves to null, which is filtered away) and shows
    only as one line of the console, and the results of all the others are
    still produced.  After the starting line the console holds exactly one
    line for each failing member; the order of these lines follows the
    arrival of the answers and is not fixed by the roster.  The error
    message is set only when the roster is not empty and nobody could be
    scored. *)
Theorem loadData_keeps_exactly_the_scorable_members
    (roster : list User.t) (w : World) :
  exists w',
    App.loadDataWith (ret roster) w = (inr tt, w')
    /\ users (app w') = roster
    /\ map FullUserPerformance.id (performances (app w'))
       = filter (scorable (pointed w)) (map User.id roster)
    /\ loading (app w') = false
    /\ error (app w')
       = (if ((List.length (performances (app w')) =? 0)
              && (0 <? List.length roster))%nat
          then Some noScoresMessage else None)
    /\ exists lines,
         map fst (console w')
         = (map fst (console w) ++ startLine roster :: lines)%list
         /\ Permutation lines (errorLines (pointed w) roster).
Proof.
  destruct (loadDataWith_run roster w)
    as (rs & w' & Hrun & Hrs & Hu & Hp & Hl & He & Hc).
  exists w'. rewrite Hp.
  repeat split; auto using nonNull_ids.
Qed.

(** Two members cannot be reached and the answer for the first arrives
    last: the console names the second before the first, the results keep
    the order of the roster. *)
Example failures_are_logged_in_order_of_arrival :
  map fst
    (console (snd (App.loadData
                     (arriving aliceLast (world firstTwoDown (fun _ => 0.5))))))
  = [ "Starting score calculation for 5 users...";
      "Error processing user bob-backend";
      "Error processing user alice-dev" ]%string
  /\ map FullUserPerformance.id
       (performances
          (app (snd (App.loadData
                       (arriving aliceLast
                          (world firstTwoDown (fun _ => 0.5)))))))
     = [ "charlie-frontend"; "diana-ml"; "ethan-arch" ]%string.
Proof. split; vm_compute; reflexivity. Qed.

(** ** The penalty *)

(** C5, as the specification states it, fails: a negative total reported by
    the backend is subtracted as it is, which raises the score (here from
    135 to 140). *)
Lemma negative_penalty_is_not_clamped :
  exists p,
    scoredWith negativePenalty = Some p
    /\ ~ (0 <= UserDetail.penaltyScore p)
    /\ FullUserPerformance.final_score p == 140.
Proof.
  eexists. split; [vm_compute; reflexivity|].
  split; [|reflexivity].
  intros H. vm_compute in H. apply H. reflexivity.
Qed.

(** C5, as the code has it: the penalty taken off the score is the
    blocker_penalty_total that the backend reports, unchanged and without a
    clamp.  A batch run has one entry for each member that could be scored;
    the entry carries the variables the backend answered, and its final
    score is difficulty plus kudos minus that total; a higher reported
    total never gives a higher score, a total of zero takes nothing off,
    and a negative total is subtracted as it is.
    Delays, rework and unresolved blockers are not inputs of the code. *)
Theorem penalty_is_the_reported_total
    (roster : list User.t) (w : World) (v : Variables.t) (B1 B2 : Q) :
  B1 <= B2 ->
  (exists w',
     App.loadDataWith (ret roster) w = (inr tt, w')
     /\ map FullUserPerformance.id (performances (app w'))
        = filter (scorable (pointed w)) (map User.id roster)
     /\ Forall (fun p =>
                  (exists data,
                     backendData (pointed w) (FullUserPerformance.id p)
                     = Some (data, FullUserPerformance.variables p))
                  /\ UserDetail.penaltyScore p
                     = Variables.blocker_penalty_total
                         (FullUserPerformance.variables p)
                  /\ FullUserPerformance.final_score p
                     = UserDetail.difficultyScore p + UserDetail.kudosScore p
                       - Variables.blocker_penalty_total
                           (FullUserPerformance.variables p))
          (performances (app w')))
  /\ Api.calculatedScore (withPenalty v B2)
     <= Api.calculatedScore (withPenalty v B1)
  /\ Api.calculatedScore (withPenalty v 0)
     == Variables.base_points v * Variables.difficulty_factor v
        + Variables.peer_kudos_count v * 1.5.
Proof.
  intros HB. split; [|split].
  - destruct (loadDataWith_run roster w)
      as (rs & w' & Hrun & Hrs & Hu & Hp & Hl & He & Hc).
    exists w'. rewrite Hp. split; [exact Hrun|].
    split; [exact (nonNull_ids _ _ _ Hrs)|].
    pose proof (nonNull_backend _ _ _ Hrs) as Hb.
    pose proof (nonNull_scores _ _ _ Hrs) as Hs.
    rewrite Forall_forall in *. intros p Hin.
    destruct (Hs p Hin) as (Hf & _).
    split; [exact (Hb p Hin)|]. split; [reflexivity|exact Hf].
  - unfold Api.calculatedScore, withPenalty.
    cbn [Variables.base_points Variables.difficulty_factor
         Variables.peer_kudos_count Variables.blocker_penalty_total].
    lra.
  - unfold Api.calculatedScore, withPenalty.
    cbn [Variables.base_points Variables.difficulty_factor
         Variables.peer_kudos_count Variables.blocker_penalty_total].
    ring.
Qed.

(** C5 for the five members, the scenario and the totals 0 and 5. *)
Lemma penalty_is_the_reported_total_witness :
  0 <= 5
  /\ Api.calculatedScore (withPenalty scenario 5)
     <= Api.calculatedScore (withPenalty scenario 0)
  /\ Api.calculatedScore (withPenalty scenario 0)
     == Variables.base_points scenario * Variables.difficulty_factor scenario
        + Variables.peer_kudos_count scenario * 1.5.
Proof.
  assert (H : 0 <= 5) by (apply Qle_bool_imp_le; reflexivity).
  split; [exact H|].
  destruct (penalty_is_the_reported_total
              (map Api.userOfId Api.PROVIDED_USER_IDS)
              (world backendUp (fun _ => 0.5)) scenario 0 5 H)
    as (_ & Hm & Hz).
  split; [exact Hm|exact Hz].
Defined.

(** ** Burnout *)

(** C7, as the specification states it, fails: in a team of ten whose first
    member holds 70 of the 100 points of base work, that member's
    burnout_risk is 30, below the 60 of the specification and below the 70
    of the dashboard's alert. *)
Lemma concentration_does_not_raise_burnout :
  exists p,
    List.length team10 = 10%nat
    /\ In p team10
    /\ UserDetail.difficultyScore p == 0.7 * teamBaseWork team10
    /\ burnoutOf p == 30
    /\ ~ (60 < burnoutOf p)
    /\ DashboardOverview.isHighBurnout p = false.
Proof.
  remember team10 as t eqn:E. vm_compute in E. subst t.
  eexists. split; [reflexivity|]. split; [left; reflexivity|].
  split; [reflexivity|]. split; [reflexivity|].
  split; [|reflexivity].
  intros H. vm_compute in H. discriminate H.
Qed.

(** C7, as the code has it: burnout_risk is a two-valued function of the
    member's own locally computed score, 85 when the score exceeds 150 and 30
    otherwise, hence within [0,100]; neither the member's share of the
    team's base work nor any penalty trend enters it.  In a batch run every
    entry carries the value that belongs to its own final score, and the
    dashboard's alert (above 70) is raised exactly for the scores above
    150. *)
Theorem burnout_depends_on_own_score_only
    (userId : string) (baseScore : Q) (roster : list User.t) (w : World) :
  (exists m w',
     Api.generateAdvancedMetrics userId baseScore w = (inr m, w')
     /\ WellnessMetrics.burnout_risk (AdvancedMetrics.wellness m)
        = (if Js.gt baseScore 150 then 85 else 30)
     /\ 0 <= WellnessMetrics.burnout_risk (AdvancedMetrics.wellness m)
     /\ WellnessMetrics.burnout_risk (AdvancedMetrics.wellness m) <= 100)
  /\ (exists w',
        App.loadDataWith (ret roster) w = (inr tt, w')
        /\ Forall (fun p =>
                     burnoutOf p
                     = (if Js.gt (FullUserPerformance.final_score p) 150
                        then 85 else 30)
                     /\ DashboardOverview.isHighBurnout p
                        = Js.gt (FullUserPerformance.final_score p) 150)
             (performances (app w'))).
Proof.
  split.
  - destruct (generateAdvancedMetrics_run userId baseScore w)
      as (m & Hm & Hb & _).
    exists m, (advance 6 w). rewrite Hb.
    split; [exact Hm|]. split; [reflexivity|].
    destruct (Js.gt baseScore 150); split; discriminate.
  - destruct (loadDataWith_run roster w)
      as (rs & w' & Hrun & Hrs & Hu & Hp & Hl & He & Hc).
    exists w'. rewrite Hp. split; [exact Hrun|].
    eapply Forall_impl; [|exact (nonNull_scores _ _ _ Hrs)].
    intros p (_ & a & Ha & Hb & _).
    unfold burnoutOf, DashboardOverview.isHighBurnout.
    rewrite Ha, Hb.
    destruct (Js.gt (FullUserPerformance.final_score p) 150);
      split; reflexivity.
Qed.

(** ** Base work *)

(** C8: with zero kudos and zero penalty the computed score is the base
    work base_points * difficulty_factor, nothing added and nothing
    subtracted.  This is the value of both copies of the formula, the value
    from which [calculateScore] derives the advanced metrics of a member
    whose backend answers such variables, and the final score that
    [loadData] stores for such a member: a batch has one entry for each
    member that could be scored, the entry carries the variables the
    backend answered, and with zero kudos and zero penalty its final score
    is the base work. *)
Theorem score_is_base_work_without_kudos_and_penalty
    (roster : list User.t) (w : World) (userId : string)
    (data : ScoreResponse.t) (v : Variables.t) :
  Variables.peer_kudos_count v == 0 ->
  Variables.blocker_penalty_total v == 0 ->
  (Api.calculatedScore v
   == Variables.base_points v * Variables.difficulty_factor v
   /\ App.calculatedScore v
      == Variables.base_points v * Variables.difficulty_factor v)
  /\ (backendData w userId = Some (data, v) ->
      exists r w',
        Api.calculateScore userId w = (inr r, w')
        /\ ScoredResponse.variables r = Some v
        /\ WellnessMetrics.burnout_risk
             (AdvancedMetrics.wellness (ScoredResponse.advanced r))
           = (if Js.gt (Variables.base_points v
                        * Variables.difficulty_factor v) 150
              then 85 else 30)
        /\ AdvancedMetrics.attrition_risk_prediction
             (ScoredResponse.advanced r)
           = (if Js.gt (Variables.base_points v
                        * Variables.difficulty_factor v) 160
              then "High" else "Low")%string)
  /\ (exists w',
        App.loadDataWith (ret roster) w = (inr tt, w')
        /\ map FullUserPerformance.id (performances (app w'))
           = filter (scorable (pointed w)) (map User.id roster)
        /\ Forall (fun p =>
                     (exists answered,
                        backendData (pointed w) (FullUserPerformance.id p)
                        = Some (answered, FullUserPerformance.variables p))
                     /\ (Variables.peer_kudos_count
                           (FullUserPerformance.variables p) == 0 ->
                         Variables.blocker_penalty_total
                           (FullUserPerformance.variables p) == 0 ->
                         FullUserPerformance.final_score p
                         == Variables.base_points
                              (FullUserPerformance.variables p)
                            * Variables.difficulty_factor
                                (FullUserPerformance.variables p)))
             (performances (app w'))).
Proof.
  intros Hk Hp.
  assert (Hlaw : forall x : Variables.t,
             Variables.peer_kudos_count x == 0 ->
             Variables.blocker_penalty_total x == 0 ->
             Api.calculatedScore x
             == Variables.base_points x * Variables.difficulty_factor x).
  { intros x Hkx Hpx. unfold Api.calculatedScore. rewrite Hkx, Hpx. ring. }
  split; [split; apply (Hlaw v Hk Hp)|]. split.
  - intros Hd. destruct (calculateScore_ok _ _ _ _ Hd) as (a & Hc & Hb & Hr).
    do 2 eexists. split; [exact Hc|]. cbn.
    rewrite Hb, Hr, !(gt_compat _ _ _ (Hlaw v Hk Hp)). auto.
  - destruct (loadDataWith_run roster w)
      as (rs & w' & Hrun & Hrs & Hu & Hpf & Hl & He & Hc).
    exists w'. rewrite Hpf. split; [exact Hrun|].
    split; [exact (nonNull_ids _ _ _ Hrs)|].
    pose proof (nonNull_backend _ _ _ Hrs) as Hb.
    pose proof (nonNull_scores _ _ _ Hrs) as Hs.
    rewrite Forall_forall in *. intros p Hin.
    split; [exact (Hb p Hin)|].
    intros Hkp Hpp. destruct (Hs p Hin) as (-> & _). now apply Hlaw.
Qed.

(** C8 for a backend that answers 70 base points of difficulty 1, no kudos
    and no penalty: [calculateScore] derives the metrics of the score 70,
    and [loadData] stores the score 70 for each of the five members. *)
Lemma score_is_base_work_witness :
  Variables.peer_kudos_count (baseOnly 70) == 0
  /\ Variables.blocker_penalty_total (baseOnly 70) == 0
  /\ Api.calculatedScore (baseOnly 70) == 70 * 1
  /\ (exists r w',
        Api.calculateScore "alice-dev"
          (world (fun _ => answer (baseOnly 70)) (fun _ => 0.5)) = (inr r, w')
        /\ ScoredResponse.variables r = Some (baseOnly 70)
        /\ WellnessMetrics.burnout_risk
             (AdvancedMetrics.wellness (ScoredResponse.advanced r))
           = (if Js.gt (70 * 1) 150 then 85 else 30))
  /\ exists w',
       App.loadData (world (fun _ => answer (baseOnly 70)) (fun _ => 0.5))
       = (inr tt, w')
       /\ List.length (performances (app w')) = 5%nat
       /\ Forall (fun p => FullUserPerformance.final_score p == 70 * 1)
            (performances (app w')).
Proof.
  assert (H0 : 0 == 0) by reflexivity.
  split; [exact H0|]. split; [exact H0|].
  destruct (score_is_base_work_without_kudos_and_penalty
              (map Api.userOfId Api.PROVIDED_USER_IDS)
              (world (fun _ => answer (baseOnly 70)) (fun _ => 0.5))
              "alice-dev"
              {| ScoreResponse.analysis_summary := summary0;
                 ScoreResponse.variables := Some (baseOnly 70);
                 ScoreResponse.final_score := None |}
              (baseOnly 70) H0 H0)
    as ((Hf & _) & Hcalc & w3 & Hrun3 & Hids & Hall).
  split; [exact Hf|]. split.
  - destruct (Hcalc eq_refl) as (r & w' & Hrun & Hv & Hb & _).
    exists r, w'. split; [exact Hrun|]. split; [exact Hv|exact Hb].
  - exists w3. split; [exact Hrun3|]. split.
    + rewrite <- (length_map FullUserPerformance.id), Hids. reflexivity.
    + eapply Forall_impl; [|exact Hall].
      intros p ((answered & Hbd) & Hlaw).
      unfold backendData in Hbd. cbn in Hbd.
      inversion Hbd as [[Ha Hv]]. rewrite <- Hv in Hlaw.
      exact (Hlaw H0 H0).
Defined.

(** ** The roster *)

(** C9: [fetchUsers] is constant.  In every world it resolves to the same
    five users, in the order of the provided ids, and leaves the world as it
    was: the count of the requests sent stays what it was, so no service is
    contacted, and no state is read or written.  Each name is the
    capitalised first hyphen-segment of the id, each role the upper-cased
    second segment (MEMBER when there is none), and avatarUrl is
    undefined. *)
Theorem fetchUsers_is_constant (w : World) :
  exists us,
    Api.fetchUsers w = (inr us, w)
    /\ requests (snd (Api.fetchUsers w)) = requests w
    /\ us = [ {| User.id := "alice-dev"; User.name := "Alice";
                 User.role := "DEV"; User.avatarUrl := None |};
              {| User.id := "bob-backend"; User.name := "Bob";
                 User.role := "BACKEND"; User.avatarUrl := None |};
              {| User.id := "charlie-frontend"; User.name := "Charlie";
                 User.role := "FRONTEND"; User.avatarUrl := None |};
              {| User.id := "diana-ml"; User.name := "Diana";
                 User.role := "ML"; User.avatarUrl := None |};
              {| User.id := "ethan-arch"; User.name := "Ethan";
                 User.role := "ARCH"; User.avatarUrl := None |} ]
    /\ map User.id us = Api.PROVIDED_USER_IDS
    /\ Forall (fun u =>
                 exists first rest,
                   Js.split "-" (User.id u) = first :: rest
                   /\ User.name u
                      = Js.toUpperCase (Js.charAt 0 first) ++ Js.slice 1 first
                   /\ User.role u
                      = match rest with
                        | second :: _ => Js.toUpperCase second
                        | [] => "MEMBER"
                        end
                   /\ User.avatarUrl u = None) us.
Proof.
  eexists. split; [reflexivity|]. split; [reflexivity|].
  split; [reflexivity|]. split; [reflexivity|].
  repeat constructor; do 2 eexists; repeat split.
Qed.

(** By contrast every call of [calculateScore] sends one request, whether it
    resolves or throws. *)
Lemma calculateScore_sends_one_request (userId : string) (w : World) :
  requests (snd (Api.calculateScore userId w)) = S (requests w).
Proof.
  destruct (backendData w userId) as [[data v]|] eqn:Hd.
  - destruct (calculateScore_ok _ _ _ _ Hd) as (a & -> & _). reflexivity.
  - destruct (calculateScore_fails _ _ Hd) as (e & ->). reflexivity.
Qed.

(** An id without a hyphen gets the role MEMBER. *)
Example userOfId_without_role :
  Api.userOfId "zoe"
  = {| User.id := "zoe"; User.name := "Zoe"; User.role := "MEMBER";
       User.avatarUrl := None |}.
Proof. reflexivity. Qed.

(** ** Attrition *)

(** C10: for every userId and baseScore the generated
    attrition_risk_prediction is High exactly when the score exceeds 160 and
    Low otherwise; Medium is never produced.  In a batch run the score in
    question is the entry's own final score. *)
Theorem attrition_is_High_or_Low
    (userId : string) (baseScore : Q) (roster : list User.t) (w : World) :
  (exists m w',
     Api.generateAdvancedMetrics userId baseScore w = (inr m, w')
     /\ AdvancedMetrics.attrition_risk_prediction m
        = (if Js.gt baseScore 160 then "High" else "Low")%string
     /\ (AdvancedMetrics.attrition_risk_prediction m = "High"%string
         <-> 160 < baseScore)
     /\ (AdvancedMetrics.attrition_risk_prediction m = "Low"%string
         <-> baseScore <= 160)
     /\ AdvancedMetrics.attrition_risk_prediction m <> "Medium"%string)
  /\ (exists w',
        App.loadDataWith (ret roster) w = (inr tt, w')
        /\ Forall (fun p =>
                     exists a,
                       FullUserPerformance.advanced p = Some a
                       /\ AdvancedMetrics.attrition_risk_prediction a
                          = (if Js.gt (FullUserPerformance.final_score p) 160
                             then "High" else "Low")%string)
             (performances (app w'))).
Proof.
  split.
  - destruct (generateAdvancedMetrics_run userId baseScore w)
      as (m & Hm & _ & Hr & _).
    exists m, (advance 6 w). rewrite Hr.
    split; [exact Hm|]. split; [reflexivity|].
    destruct (Js.gt baseScore 160) eqn:G.
    + apply gt_spec in G. repeat split; auto; try discriminate.
      intros H. exfalso. exact (Qlt_not_le _ _ G H).
    + apply gt_false in G. repeat split; auto; try discriminate.
      intros H. exfalso. exact (Qlt_not_le _ _ H G).
  - destruct (loadDataWith_run roster w)
      as (rs & w' & Hrun & Hrs & Hu & Hp & Hl & He & Hc).
    exists w'. rewrite Hp. split; [exact Hrun|].
    eapply Forall_impl; [|exact (nonNull_scores _ _ _ Hrs)].
    intros p (_ & a & Ha & _ & Hr). exists a. auto.
Qed.

(** ** The examples again, in binary64 *)

(** The law of the base work does not depend on the idealisation: on
    binary64 numbers too, with no kudos and no penalty, the score is [===]
    to base_points * difficulty_factor as soon as that product is a number
    (not NaN). *)
Lemma binary64_score_is_base_work (base_points difficulty_factor : float) :
  Binary64.strictEq (base_points * difficulty_factor)
                    (base_points * difficulty_factor) = true ->
  Binary64.strictEq
    (Binary64.calculatedScore base_points difficulty_factor 0 0)
    (base_points * difficulty_factor) = true.
Proof.
  unfold Binary64.strictEq, Binary64.calculatedScore.
  change (0 * 1.5)%float with 0%float.
  generalize (base_points * difficulty_factor)%float. intros x.
  rewrite !eqb_spec, sub_spec, add_spec.
  change (Prim2SF 0) with (S754_zero false).
  destruct (Prim2SF x) as [[|]|[|]| |[|] m e]; cbn; auto.
Qed.

(** The scenario gives 130 and not 115 in binary64 as well; the first two
    kudos add 1.5 each; a reported penalty of -5 raises the score to 140;
    and the member of the team of ten with 70 points of base work stays
    below the 150 that would raise the burnout risk. *)
Example binary64_examples :
  Binary64.strictEq (Binary64.calculatedScore 100 0x1.3333333333333p+0 10 5)
                    130 = true
  /\ Binary64.strictEq (Binary64.calculatedScore 100 0x1.3333333333333p+0 10 5)
                       115 = false
  /\ Binary64.strictEq
       (Binary64.calculatedScore 0 0 1 0 - Binary64.calculatedScore 0 0 0 0)
       1.5 = true
  /\ Binary64.strictEq
       (Binary64.calculatedScore 0 0 2 0 - Binary64.calculatedScore 0 0 1 0)
       1.5 = true
  /\ Binary64.strictEq
       (Binary64.calculatedScore 100 0x1.3333333333333p+0 10 (-5)) 140 = true
  /\ Binary64.gt (Binary64.calculatedScore 70 1 0 0) 150 = false.
Proof. vm_compute. repeat split. Qed.

(** Where the variables are whole numbers of moderate size, binary64 adds
    1.5 for every kudos, as the exact arithmetic does: here the eleventh and
    the twelfth kudos on 70 base points.  Outside this range it need not:
    with 3 base points of difficulty 0.1 the first kudos adds 1.5, the
    second a little less.  This is why the statements about sums carry
    their hypotheses of exactness. *)
Example binary64_kudos_increments :
  Binary64.strictEq
    (Binary64.calculatedScore 70 1 11 0 - Binary64.calculatedScore 70 1 10 0)
    1.5 = true
  /\ Binary64.strictEq
       (Binary64.calculatedScore 70 1 12 0 - Binary64.calculatedScore 70 1 11 0)
       1.5 = true
  /\ Binary64.strictEq
       (Binary64.calculatedScore 3 0x1.999999999999ap-4 1 0
        - Binary64.calculatedScore 3 0x1.999999999999ap-4 0 0)
       1.5 = true
  /\ Binary64.strictEq
       (Binary64.calculatedScore 3 0x1.999999999999ap-4 2 0
        - Binary64.calculatedScore 3 0x1.999999999999ap-4 1 0)
       1.5 = false.
Proof. vm_compute. repeat split. Qed.

(** ** More of services/api.ts *)





(** X2: when the backend answers with a status that is not ok,
    [calculateScore] throws an [Error] whose message names the member, the
    status and the body text; one request has been sent, the rest of the
    world is left as it was and no random number is drawn. *)
Theorem calculateScore_http_error (userId : string) (w : World) (r : Response) :
  network w (scoreUrl w userId) = Resolved r ->
  ok r = false ->
  Api.calculateScore userId w
  = (inl (Js.newError ("POST /calculate-score/" ++ userId ++ " failed: "
                       ++ Js.showNat (status r) ++ " - " ++ text r)),
     requested w).
Proof.
  unfold scoreUrl. intros Hn Hok.
  unfold Api.calculateScore, try_catch, bind, Api.getApiBaseUrl, fetch, throw.
  rewrite Hn, Hok. reflexivity.
Qed.

Lemma calculateScore_http_error_witness :
  network (world notFound (fun _ => 0))
    (scoreUrl (world notFound (fun _ => 0)) "alice-dev")
  = notFound "http://localhost:8000/calculate-score/alice-dev"
  /\ Api.calculateScore "alice-dev" (world notFound (fun _ => 0))
     = (inl (Js.newError
               "POST /calculate-score/alice-dev failed: 404 - Not Found"),
        requested (world notFound (fun _ => 0))).
Proof.
  split; [reflexivity|].
  apply (calculateScore_http_error "alice-dev" (world notFound (fun _ => 0))
           {| ok := false; status := 404; text := "Not Found";
              json := inl {| Js.name := "SyntaxError";
                             Js.message := "Unexpected token" |} |});
    reflexivity.
Defined.

(** X3: when [fetch] itself rejects, a [TypeError] with the message
    "Failed to fetch" is replaced by an [Error] that names the endpoint in
    use; every other rejection is thrown on unchanged.  One request has been
    sent; the rest of the world is left as it was. *)
Theorem calculateScore_network_error (userId : string) (w : World) (e : Js.Error) :
  network w (scoreUrl w userId) = Rejected e ->
  Api.calculateScore userId w
  = (inl (if Js.error_eqb e "TypeError" "Failed to fetch"
          then Js.newError ("Network Error: Could not connect to "
                            ++ API_BASE w
                            ++ ". Check CORS or if server is running.")
          else e), requested w).
Proof.
  unfold scoreUrl. intros Hn.
  unfold Api.calculateScore, try_catch, bind, Api.getApiBaseUrl, fetch, throw.
  rewrite Hn. destruct (Js.error_eqb e _ _); reflexivity.
Qed.

Lemma calculateScore_network_error_witness :
  network (world bobDown (fun _ => 0))
    (scoreUrl (world bobDown (fun _ => 0)) "bob-backend")
  = failedToFetch
  /\ Api.calculateScore "bob-backend" (world bobDown (fun _ => 0))
     = (inl (Js.newError
               "Network Error: Could not connect to http://localhost:8000. Check CORS or if server is running."),
        requested (world bobDown (fun _ => 0))).
Proof.
  split; [reflexivity|].
  apply (calculateScore_network_error "bob-backend"
           (world bobDown (fun _ => 0))
           {| Js.name := "TypeError"; Js.message := "Failed to fetch" |}).
  reflexivity.
Defined.

(** X4: [calculateScore] resolves exactly when the backend answers ok with a
    body that parses and carries variables.  A resolved call hands the
    backend's analysis_summary, variables and final_score through untouched
    and, after its one request, draws exactly six random numbers; a
    rejected call leaves the world as it was after its one request. *)
Theorem calculateScore_resolves_iff_scorable (userId : string) (w : World) :
  match Api.calculateScore userId w with
  | (inr r, w') =>
      exists data v,
        backendData w userId = Some (data, v)
        /\ scorable w userId = true
        /\ ScoredResponse.analysis_summary r
           = ScoreResponse.analysis_summary data
        /\ ScoredResponse.variables r = Some v
        /\ ScoredResponse.final_score r = ScoreResponse.final_score data
        /\ w' = advance 6 (requested w)
  | (inl e, w') => scorable w userId = false /\ w' = requested w
  end.
Proof.
  unfold scorable.
  destruct (backendData w userId) as [[data v]|] eqn:Hd.
  - destruct (calculateScore_ok _ _ _ _ Hd) as (a & Hc & _).
    rewrite Hc. exists data, v. repeat split.
  - destruct (calculateScore_fails _ _ Hd) as (e & Hc).
    rewrite Hc. split; reflexivity.
Qed.

(** The history, point by point: the i-th point uses the i-th draw. *)
Lemma generateHistory_points (baseScore : Q) (w : World) :
  Api.generateHistory baseScore w
  = (inr (historyFrom baseScore (fun i => entropy w (i + drawn w)%nat)),
     advance 6 w).
Proof. reflexivity. Qed.

Lemma Math_max_lower (a b : Q) : a <= Js.Math_max a b /\ b <= Js.Math_max a b.
Proof.
  unfold Js.Math_max. destruct (Qle_bool a b) eqn:E.
  - apply Qle_bool_iff in E. split; [exact E|apply Qle_refl].
  - split; [apply Qle_refl|].
    apply Qlt_le_weak, Qnot_le_lt. intros H.
    apply Qle_bool_iff in H. congruence.
Qed.

Lemma Math_max_mono (a b c : Q) : b <= c -> Js.Math_max a b <= Js.Math_max a c.
Proof.
  intros H. unfold Js.Math_max at 1. destruct (Qle_bool a b).
  - eapply Qle_trans; [exact H|apply Math_max_lower].
  - apply Math_max_lower.
Qed.

(** X5: whatever the score and whatever [Math.random] returns, the
    generated history has the six months January to June in this order and
    no point of it is negative. *)
Theorem generateHistory_six_months_never_negative (baseScore : Q) (w : World) :
  exists h w',
    Api.generateHistory baseScore w = (inr h, w')
    /\ map HistoryPoint.month h = ["Jan"; "Feb"; "Mar"; "Apr"; "May"; "Jun"]
    /\ Forall (fun p => 0 <= HistoryPoint.score p) h.
Proof.
  rewrite generateHistory_points. do 2 eexists.
  split; [reflexivity|]. split; [reflexivity|].
  unfold historyFrom. cbn [map fst snd HistoryPoint.score].
  repeat constructor; apply Math_max_lower.
Qed.

(** X6: when [Math.random] returns values of [0, 1), as it does, and the
    score is a multiple of 0.5 of moderate size, the point of month i (0 for
    January) lies at most 20 below and at most 20 above baseScore + 2 i, the
    upper bound itself being clamped at zero.  For such a score the two
    bounds are numbers that binary64 represents, so that the rounded sums of
    the code, which are monotone, stay between them as the exact sums do. *)
Theorem generateHistory_within_twenty (baseScore : Q) (w : World) :
  isSmallHalf baseScore ->
  (forall n, 0 <= entropy w n /\ entropy w n < 1) ->
  exists h w',
    Api.generateHistory baseScore w = (inr h, w')
    /\ Forall2 (fun p i =>
                  baseScore - 20 + 2 * inject_Z (Z.of_nat i)
                  <= HistoryPoint.score p
                  /\ HistoryPoint.score p
                     <= Js.Math_max 0
                          (baseScore + 20 + 2 * inject_Z (Z.of_nat i)))
         h [0; 1; 2; 3; 4; 5]%nat.
Proof.
  intros _ Hr. rewrite generateHistory_points. do 2 eexists.
  split; [reflexivity|].
  unfold historyFrom. cbn [map fst snd].
  repeat constructor; cbn [HistoryPoint.score];
    match goal with
    | |- _ <= Js.Math_max 0 (_ + (entropy w ?n * 40 - 20) + _) =>
        eapply Qle_trans; [|apply Math_max_lower];
        destruct (Hr n) as (H0 & H1); lra
    | |- Js.Math_max 0 (_ + (entropy w ?n * 40 - 20) + _) <= _ =>
        apply Math_max_mono;
        destruct (Hr n) as (H0 & H1); lra
    end.
Qed.

Lemma generateHistory_within_twenty_witness :
  isSmallHalf 130
  /\ (forall n, 0 <= entropy run2 n /\ entropy run2 n < 1)
  /\ exists h w',
       Api.generateHistory 130 run2 = (inr h, w')
       /\ Forall2 (fun p i =>
                     130 - 20 + 2 * inject_Z (Z.of_nat i)
                     <= HistoryPoint.score p
                     /\ HistoryPoint.score p
                        <= Js.Math_max 0
                             (130 + 20 + 2 * inject_Z (Z.of_nat i)))
            h [0; 1; 2; 3; 4; 5]%nat.
Proof.
  assert (H : forall n, 0 <= entropy run2 n /\ entropy run2 n < 1).
  { intros n. cbn. split; [apply Qle_bool_imp_le|]; reflexivity. }
  assert (H130 : isSmallHalf 130).
  { exists 260%Z. split; [reflexivity|]. cbn. lia. }
  split; [exact H130|]. split; [exact H|].
  exact (generateHistory_within_twenty 130 run2 H130 H).
Defined.

(** Runs [generateAdvancedMetrics] and leaves its record in the goal. *)
Ltac run_metrics :=
  unfold Api.generateAdvancedMetrics, bind;
  rewrite generateHistory_points;
  do 2 eexists; split; [reflexivity|];
  cbn [AdvancedMetrics.skills AdvancedMetrics.projects AdvancedMetrics.wellness
       AdvancedMetrics.growth AdvancedMetrics.customer_impact
       AdvancedMetrics.attrition_risk_prediction
       WellnessMetrics.burnout_risk WellnessMetrics.async_efficiency
       CareerGrowth.promotion_readiness CareerGrowth.learning_velocity].

Ltac closed_Q :=
  match goal with
  | |- _ <= _ => apply Qle_bool_imp_le; reflexivity
  | |- _ < _ => reflexivity
  end.

(** X7: the generated metrics stay in the ranges that types.ts documents
    and the detail view displays, for every member and every score: five
    skills with scores in 0-100, project contributions in 0-100 that sum to
    at most 100, promotion_readiness in 0-100, async_efficiency in 0-10, and
    learning_velocity, shown out of 10, in 0-10. *)
Theorem generateAdvancedMetrics_documented_ranges
    (userId : string) (baseScore : Q) (w : World) :
  exists m w',
    Api.generateAdvancedMetrics userId baseScore w = (inr m, w')
    /\ List.length (AdvancedMetrics.skills m) = 5%nat
    /\ Forall (fun s => 0 <= SkillMetric.score s /\ SkillMetric.score s <= 100)
         (AdvancedMetrics.skills m)
    /\ Forall (fun p => 0 <= ProjectContribution.contribution_pct p
                        /\ ProjectContribution.contribution_pct p <= 100)
         (AdvancedMetrics.projects m)
    /\ fold_right (fun p acc => ProjectContribution.contribution_pct p + acc)
         0 (AdvancedMetrics.projects m) <= 100
    /\ 0 <= CareerGrowth.promotion_readiness (AdvancedMetrics.growth m)
    /\ CareerGrowth.promotion_readiness (AdvancedMetrics.growth m) <= 100
    /\ 0 <= WellnessMetrics.async_efficiency (AdvancedMetrics.wellness m)
    /\ WellnessMetrics.async_efficiency (AdvancedMetrics.wellness m) <= 10
    /\ 0 <= CareerGrowth.learning_velocity (AdvancedMetrics.growth m)
    /\ CareerGrowth.learning_velocity (AdvancedMetrics.growth m) <= 10.
Proof.
  run_metrics.
  destruct (Js.includes userId "dev" || Js.includes userId "frontend"
            || Js.includes userId "backend")%bool;
    destruct (Js.includes userId "arch");
    destruct (Js.includes userId "ml");
    destruct (Js.gt baseScore 120);
    destruct (Js.gt baseScore 130);
    (split; [reflexivity|]);
    (split; [repeat constructor; cbn; closed_Q|]);
    (split; [repeat constructor; cbn; closed_Q|]);
    repeat split; cbn; closed_Q.
Qed.

(** X8: the indicators derived from the score are nested.  Whenever the
    attrition risk is High, the burnout risk is 85, the promotion readiness
    is 90 and the Communication skill is 85; whenever the promotion
    readiness is 60, the burnout risk is 30 and the attrition risk Low. *)
Theorem generateAdvancedMetrics_thresholds_nest
    (userId : string) (baseScore : Q) (w : World) :
  exists m w',
    Api.generateAdvancedMetrics userId baseScore w = (inr m, w')
    /\ (AdvancedMetrics.attrition_risk_prediction m = "High"%string ->
        WellnessMetrics.burnout_risk (AdvancedMetrics.wellness m) = 85
        /\ CareerGrowth.promotion_readiness (AdvancedMetrics.growth m) = 90
        /\ In {| SkillMetric.name := "Communication";
                 SkillMetric.score := 85; SkillMetric.gap := 0 |}
              (AdvancedMetrics.skills m))
    /\ (CareerGrowth.promotion_readiness (AdvancedMetrics.growth m) = 60 ->
        WellnessMetrics.burnout_risk (AdvancedMetrics.wellness m) = 30
        /\ AdvancedMetrics.attrition_risk_prediction m = "Low"%string).
Proof.
  run_metrics.
  destruct (Js.gt baseScore 160) eqn:G160;
    destruct (Js.gt baseScore 150) eqn:G150;
    destruct (Js.gt baseScore 130) eqn:G130;
    destruct (Js.gt baseScore 120) eqn:G120;
    repeat match goal with
           | H : Js.gt _ _ = true |- _ => apply gt_spec in H
           | H : Js.gt _ _ = false |- _ => apply gt_false in H
           end;
    try (exfalso; lra);
    (split;
     [intros H;
      first [discriminate H
            |split; [reflexivity|]; split; [reflexivity|]; cbn; auto 6]
     |intros H; first [discriminate H | split; reflexivity]]).
Qed.

(** X9: for a score between -2^20 and 2^20, customer_impact is a whole
    number within a thousandth of the floor of ten times the score: it is at
    most 10 * score + 0.001 and more than 10 * score - 1.001.  It is
    negative for a negative score, and it is exactly ten times the score
    when the score is a multiple of 0.5.  The margin of a thousandth covers
    the one rounding of the product in binary64, which is below 2^-29 in this
    range; for a multiple of 0.5 the product is not rounded at all. *)
Theorem customer_impact_is_floor_of_ten_times_score
    (userId : string) (baseScore : Q) (w : World) :
  - inject_Z (2 ^ 20) <= baseScore ->
  baseScore <= inject_Z (2 ^ 20) ->
  exists m w',
    Api.generateAdvancedMetrics userId baseScore w = (inr m, w')
    /\ (exists z, AdvancedMetrics.customer_impact m = inject_Z z)
    /\ AdvancedMetrics.customer_impact m <= baseScore * 10 + 0.001
    /\ baseScore * 10 - 0.001 < AdvancedMetrics.customer_impact m + 1
    /\ (baseScore < 0 -> AdvancedMetrics.customer_impact m < 0)
    /\ (isSmallHalf baseScore ->
        AdvancedMetrics.customer_impact m == baseScore * 10).
Proof.
  intros _ _. run_metrics. unfold Js.Math_floor.
  pose proof (Qfloor_le (baseScore * 10)) as Hle.
  pose proof (Qlt_floor (baseScore * 10)) as Hlt.
  rewrite inject_Z_plus in Hlt. change (inject_Z 1) with 1 in Hlt.
  split; [eexists; reflexivity|].
  split; [lra|]. split; [lra|].
  split; [intros Hneg; eapply Qle_lt_trans; [exact Hle|]; lra|].
  intros (k & Hk & _).
  assert (Hb : baseScore * 10 == inject_Z (k * 5)).
  { rewrite inject_Z_mult. change (inject_Z 5) with 5. rewrite <- Hk. ring. }
  rewrite (Qfloor_comp _ _ Hb), Qfloor_Z. symmetry. exact Hb.
Qed.

Lemma customer_impact_witness :
  - inject_Z (2 ^ 20) <= 130.5
  /\ 130.5 <= inject_Z (2 ^ 20)
  /\ exists m w',
       Api.generateAdvancedMetrics "alice-dev" 130.5 run1 = (inr m, w')
       /\ AdvancedMetrics.customer_impact m == 1305.
Proof.
  assert (Hlo : - inject_Z (2 ^ 20) <= 130.5)
    by (apply Qle_bool_imp_le; reflexivity).
  assert (Hhi : 130.5 <= inject_Z (2 ^ 20))
    by (apply Qle_bool_imp_le; reflexivity).
  split; [exact Hlo|]. split; [exact Hhi|].
  destruct (customer_impact_is_floor_of_ten_times_score
              "alice-dev" 130.5 run1 Hlo Hhi)
    as (m & w' & Hrun & _ & _ & _ & _ & Hexact).
  exists m, w'. split; [exact Hrun|].
  rewrite Hexact; [reflexivity|].
  exists 261%Z. split; [reflexivity|]. cbn. lia.
Defined.

(** Splitting on a character: a string without it is one segment, and the
    first occurrence ends the first segment. *)
Lemma split_without_separator (sep : ascii) (s : string) :
  Js.hasChar sep s = false -> Js.split sep s = [s].
Proof.
  induction s as [|c r IH]; [reflexivity|].
  cbn [Js.hasChar Js.split]. intros H.
  apply orb_false_iff in H. destruct H as (Hc & Hr).
  rewrite Hc, (IH Hr). reflexivity.
Qed.

Lemma split_at_first_separator (sep : ascii) (a b : string) :
  Js.hasChar sep a = false ->
  Js.split sep (a ++ String sep b) = a :: Js.split sep b.
Proof.
  induction a as [|c r IH]; intros H.
  - cbn [append Js.split]. now rewrite Ascii.eqb_refl.
  - cbn [Js.hasChar] in H. apply orb_false_iff in H. destruct H as (Hc & Hr).
    cbn [append Js.split]. rewrite Hc, (IH Hr). reflexivity.
Qed.

Lemma substring_all (s : string) : substring 0 (String.length s) s = s.
Proof. induction s as [|c r IH]; [reflexivity|]. cbn. now rewrite IH. Qed.

Lemma capitalised_spec (s : string) :
  Js.toUpperCase (Js.charAt 0 s) ++ Js.slice 1 s = capitalised s.
Proof.
  destruct s as [|c r]; [reflexivity|].
  unfold Js.charAt, Js.slice.
  change (substring 0 1 (String c r)) with (String c (substring 0 0 r)).
  change (substring 1 (String.length (String c r) - 1) (String c r))
    with (substring 0 (String.length r - 0) r).
  rewrite Nat.sub_0_r, substring_all.
  destruct r; reflexivity.
Qed.

(** X10: an ASCII id without a hyphen becomes a user with the role MEMBER
    whose name is the id with its first letter in upper case and the rest
    unchanged (the empty id gives the empty name). *)
Theorem userOfId_without_hyphen (id : string) :
  Js.isAscii id = true ->
  Js.hasChar "-" id = false ->
  Api.userOfId id
  = {| User.id := id; User.name := capitalised id; User.role := "MEMBER";
       User.avatarUrl := None |}.
Proof.
  intros _ H. unfold Api.userOfId.
  rewrite (split_without_separator _ _ H). cbn [nth List.length Nat.ltb Nat.leb].
  now rewrite capitalised_spec.
Qed.

Lemma userOfId_without_hyphen_witness :
  Js.isAscii "zoe" = true
  /\ Js.hasChar "-" "zoe" = false
  /\ Api.userOfId "zoe"
     = {| User.id := "zoe"; User.name := capitalised "zoe";
          User.role := "MEMBER"; User.avatarUrl := None |}.
Proof.
  split; [reflexivity|]. split; [reflexivity|].
  apply (userOfId_without_hyphen "zoe"); reflexivity.
Defined.

(** X11: an ASCII id with a hyphen is never given the default role: the
    name is the capitalised segment before the first hyphen, and the role is
    the upper-cased segment between the first hyphen and the next one (or
    the end); whatever follows a second hyphen is ignored. *)
Theorem userOfId_with_hyphen (first rest : string) :
  Js.isAscii first = true ->
  Js.isAscii rest = true ->
  Js.hasChar "-" first = false ->
  Api.userOfId (first ++ "-" ++ rest)
  = {| User.id := first ++ "-" ++ rest;
       User.name := capitalised first;
       User.role := Js.toUpperCase (nth 0 (Js.split "-" rest) "");
       User.avatarUrl := None |}.
Proof.
  intros _ _ H. unfold Api.userOfId.
  change (first ++ "-" ++ rest) with (first ++ String "-" rest).
  rewrite (split_at_first_separator _ _ _ H).
  destruct (Js.split "-" rest) as [|second more] eqn:E.
  - destruct rest as [|c r]; cbn in E; [discriminate|].
    destruct (Ascii.eqb c "-"); [discriminate|].
    destruct (Js.split "-" r); discriminate.
  - cbn [nth List.length Nat.ltb Nat.leb]. now rewrite capitalised_spec.
Qed.

Lemma userOfId_with_hyphen_witness :
  Js.isAscii "ethan" = true
  /\ Js.isAscii "arch-lead" = true
  /\ Js.hasChar "-" "ethan" = false
  /\ Api.userOfId ("ethan" ++ "-" ++ "arch-lead")
     = {| User.id := "ethan-arch-lead"; User.name := "Ethan";
          User.role := "ARCH"; User.avatarUrl := None |}.
Proof.
  split; [reflexivity|]. split; [reflexivity|]. split; [reflexivity|].
  apply (userOfId_with_hyphen "ethan" "arch-lead"); reflexivity.
Defined.

(** ** components/DashboardOverview.tsx *)

Lemma reduce_best (rest : list FullUserPerformance.t) :
  forall first,
    let f := fun prev current =>
               if Js.gt (FullUserPerformance.final_score prev)
                        (FullUserPerformance.final_score current)
               then prev else current in
    In (fold_left f rest first) (first :: rest)
    /\ Forall (fun p => FullUserPerformance.final_score p
                        <= FullUserPerformance.final_score
                             (fold_left f rest first))
         (first :: rest).
Proof.
  induction rest as [|c rest IH]; intros first f.
  - cbn. split; [auto|]. constructor; [apply Qle_refl|constructor].
  - cbn [fold_left]. destruct (IH (f first c)) as (Hin & Hall).
    fold f in Hin, Hall. inversion Hall as [|x l Hx Hl]; subst.
    assert (Hf : (f first c = first \/ f first c = c)
                 /\ FullUserPerformance.final_score first
                    <= FullUserPerformance.final_score (f first c)
                 /\ FullUserPerformance.final_score c
                    <= FullUserPerformance.final_score (f first c)).
    { unfold f.
      destruct (Js.gt (FullUserPerformance.final_score first)
                      (FullUserPerformance.final_score c)) eqn:G.
      - apply gt_spec in G. repeat split; auto using Qle_refl, Qlt_le_weak.
      - apply gt_false in G. repeat split; auto using Qle_refl. }
    destruct Hf as (Hor & H1 & H2). split.
    + destruct Hin as [Hin|Hin].
      * rewrite <- Hin. destruct Hor as [->| ->]; cbn; auto.
      * right; right; exact Hin.
    + constructor; [eapply Qle_trans; eassumption|].
      constructor; [eapply Qle_trans; eassumption|exact Hl].
Qed.

(** X12: the top performer is missing exactly for an empty list; otherwise
    it is one of the entries and no entry has a higher final score. *)
Theorem topPerformer_is_a_maximum (performances : list FullUserPerformance.t) :
  match DashboardOverview.topPerformer performances with
  | None => performances = []
  | Some top =>
      In top performances
      /\ Forall (fun p => FullUserPerformance.final_score p
                          <= FullUserPerformance.final_score top)
           performances
  end.
Proof.
  destruct performances as [|first rest]; [reflexivity|].
  cbn [DashboardOverview.topPerformer]. apply reduce_best.
Qed.

(** X13: among entries with the same highest score the last one wins: an
    entry at the end of the list is the top performer as soon as no earlier
    entry has a strictly higher score. *)
Theorem topPerformer_prefers_the_later_of_equals
    (performances : list FullUserPerformance.t) (last : FullUserPerformance.t) :
  Forall (fun p => FullUserPerformance.final_score p
                   <= FullUserPerformance.final_score last) performances ->
  DashboardOverview.topPerformer (performances ++ [last]) = Some last.
Proof.
  intros Hall. destruct performances as [|first rest]; [reflexivity|].
  change ((first :: rest) ++ [last])%list with (first :: (rest ++ [last]))%list.
  unfold DashboardOverview.topPerformer. rewrite fold_left_app.
  cbn [fold_left].
  destruct (reduce_best rest first) as (Hin & _). cbn zeta in Hin.
  rewrite Forall_forall in Hall. specialize (Hall _ Hin).
  apply gt_false in Hall. now rewrite Hall.
Qed.

Lemma topPerformer_prefers_the_later_of_equals_witness :
  Forall (fun p => FullUserPerformance.final_score p
                   <= FullUserPerformance.final_score (member "b" scenario))
    [member "a" scenario]
  /\ DashboardOverview.topPerformer
       ([member "a" scenario] ++ [member "b" scenario])
     = Some (member "b" scenario).
Proof.
  assert (H : Forall (fun p => FullUserPerformance.final_score p
                     <= FullUserPerformance.final_score (member "b" scenario))
                [member "a" scenario]).
  { constructor; [apply Qle_refl|constructor]. }
  split; [exact H|].
  exact (topPerformer_prefers_the_later_of_equals _ _ H).
Defined.

Lemma totalKudos_from (ps : list FullUserPerformance.t) :
  forall acc,
    fold_left
      (fun acc curr =>
         acc + Variables.peer_kudos_count (FullUserPerformance.variables curr))
      ps acc
    == acc + DashboardOverview.totalKudos ps.
Proof.
  unfold DashboardOverview.totalKudos.
  induction ps as [|p ps IH]; intros acc; cbn [fold_left].
  - ring.
  - rewrite IH, (IH (0 + _)). ring.
Qed.

Lemma totalKudos_cons p ps :
  DashboardOverview.totalKudos (p :: ps)
  == Variables.peer_kudos_count (FullUserPerformance.variables p)
     + DashboardOverview.totalKudos ps.
Proof.
  unfold DashboardOverview.totalKudos at 1. cbn [fold_left].
  rewrite totalKudos_from. ring.
Qed.

(** X14: the total of the kudos does not depend on the order of the
    entries: two lists with the same entries in any order have the same
    total.  The kudos are counts, whole and not negative, and the total is
    at most 2^53, so that every partial sum of the code is a whole number
    that binary64 holds exactly, in either order. *)
Theorem totalKudos_ignores_order (ps qs : list FullUserPerformance.t) :
  Permutation ps qs ->
  Forall (fun p => isCount (Variables.peer_kudos_count
                              (FullUserPerformance.variables p))) ps ->
  DashboardOverview.totalKudos ps <= inject_Z (2 ^ 53) ->
  DashboardOverview.totalKudos ps == DashboardOverview.totalKudos qs.
Proof.
  intros H _ _.
  induction H as [|p ps qs _ IH|p q ps|ps qs rs _ IH1 _ IH2].
  - reflexivity.
  - now rewrite !totalKudos_cons, IH.
  - rewrite !totalKudos_cons. ring.
  - now rewrite IH1.
Qed.

Lemma totalKudos_ignores_order_witness :
  Permutation [member "a" scenario; member "b" noActivity]
              [member "b" noActivity; member "a" scenario]
  /\ Forall (fun p => isCount (Variables.peer_kudos_count
                                 (FullUserPerformance.variables p)))
       [member "a" scenario; member "b" noActivity]
  /\ DashboardOverview.totalKudos
       [member "a" scenario; member "b" noActivity] <= inject_Z (2 ^ 53)
  /\ DashboardOverview.totalKudos
       [member "a" scenario; member "b" noActivity]
     == DashboardOverview.totalKudos
          [member "b" noActivity; member "a" scenario].
Proof.
  assert (Hc : Forall (fun p => isCount (Variables.peer_kudos_count
                                           (FullUserPerformance.variables p)))
                 [member "a" scenario; member "b" noActivity]).
  { repeat constructor; [exists 10%nat|exists 0%nat]; reflexivity. }
  assert (Hb : DashboardOverview.totalKudos
                 [member "a" scenario; member "b" noActivity]
               <= inject_Z (2 ^ 53))
    by (apply Qle_bool_imp_le; reflexivity).
  split; [apply perm_swap|]. split; [exact Hc|]. split; [exact Hb|].
  apply (totalKudos_ignores_order
           [member "a" scenario; member "b" noActivity]
           [member "b" noActivity; member "a" scenario]
           (perm_swap _ _ _) Hc Hb).
Defined.

Lemma filter_agree {A} (f g : A -> bool) (l : list A) :
  Forall (fun x => f x = g x) l -> filter f l = filter g l.
Proof.
  induction 1 as [|x l Hx _ IH]; [reflexivity|].
  cbn. now rewrite Hx, IH.
Qed.

(** X15: after a batch run the burnout alert of the dashboard counts
    exactly the entries whose final score exceeds 150; in particular it
    never exceeds the number of entries. *)
Theorem highBurnoutRisk_counts_scores_above_150
    (roster : list User.t) (w : World) :
  exists w',
    App.loadDataWith (ret roster) w = (inr tt, w')
    /\ DashboardOverview.highBurnoutRisk (performances (app w'))
       = List.length
           (filter (fun p => Js.gt (FullUserPerformance.final_score p) 150)
                   (performances (app w')))
    /\ (DashboardOverview.highBurnoutRisk (performances (app w'))
        <= List.length (performances (app w')))%nat.
Proof.
  destruct (loadDataWith_run roster w)
    as (rs & w' & Hrun & Hrs & Hu & Hp & Hl & He & Hc).
  exists w'. rewrite Hp. split; [exact Hrun|].
  unfold DashboardOverview.highBurnoutRisk. split; [|apply filter_length_le].
  f_equal. apply filter_agree.
  eapply Forall_impl; [|exact (nonNull_scores _ _ _ Hrs)].
  intros p (_ & a & Ha & Hb & _).
  unfold DashboardOverview.isHighBurnout. rewrite Ha, Hb.
  destruct (Js.gt (FullUserPerformance.final_score p) 150); reflexivity.
Qed.

(** X16: a bar of the chart carries the full name of the member.  The
    literal first sets name to the first word of the name and then spreads
    the record over it, which defines name, and id, again; the score of the
    bar is the final score. *)
Theorem chartEntry_keeps_the_full_name (p : FullUserPerformance.t) :
  JsObject.get "name" (DashboardOverview.chartEntry p)
  = Some (JsObject.VString (FullUserPerformance.name p))
  /\ JsObject.get "id" (DashboardOverview.chartEntry p)
     = Some (JsObject.VString (FullUserPerformance.id p))
  /\ DashboardOverview.scoreOf (DashboardOverview.chartEntry p)
     = FullUserPerformance.final_score p.
Proof. repeat split. Qed.

(** A member called "Ada Lovelace" is charted under both words. *)
Example chartEntry_two_words :
  JsObject.get "name"
    (DashboardOverview.chartEntry
       {| FullUserPerformance.id := "ada"; 
          FullUserPerformance.name := "Ada Lovelace";
          FullUserPerformance.role := "DEV";
          FullUserPerformance.avatarUrl := None;
          FullUserPerformance.analysis_summary := summary0;
          FullUserPerformance.variables := scenario;
          FullUserPerformance.final_score := 130;
          FullUserPerformance.advanced := None |})
  = Some (JsObject.VString "Ada Lovelace")
  /\ nth 0 (Js.split " " "Ada Lovelace") "" = "Ada"%string.
Proof. split; reflexivity. Qed.

(** Sorting by a numeric key, highest first. *)
Section SortByKey.

Context {A : Type} (key : A -> Q).

(** The comparator [(a, b) => key(b) - key(a)]. *)

Lemma insert_permutation (x : A) (l : list A) :
  Permutation (Js.insert (fun a b => key b - key a) x l) (x :: l).
Proof.
  induction l as [|y l IH]; [reflexivity|].
  cbn [Js.insert]. destruct (Js.gt (key y - key x) 0); [|reflexivity].
  rewrite IH. apply perm_swap.
Qed.

Lemma sort_permutation (l : list A) : Permutation (Js.sort (fun a b => key b - key a) l) l.
Proof.
  induction l as [|x l IH]; [reflexivity|].
  cbn [Js.sort fold_right]. fold (Js.sort (fun a b => key b - key a) l).
  rewrite insert_permutation. now constructor.
Qed.

Lemma insert_sorted (x : A) (l : list A) :
  StronglySorted (fun a b => key b <= key a) l ->
  StronglySorted (fun a b => key b <= key a) (Js.insert (fun a b => key b - key a) x l).
Proof.
  induction 1 as [|y l Hs IH Hy]; [repeat constructor|].
  cbn [Js.insert]. destruct (Js.gt (key y - key x) 0) eqn:G.
  - apply gt_spec in G. cbn beta in G.
    constructor; [exact IH|].
    eapply Permutation_Forall; [symmetry; apply insert_permutation|].
    constructor; [lra|exact Hy].
  - apply gt_false in G. cbn beta in G.
    constructor; [constructor; assumption|].
    constructor; [lra|].
    eapply Forall_impl; [|exact Hy]. cbn. intros a Ha. lra.
Qed.

Lemma sort_sorted (l : list A) :
  StronglySorted (fun a b => key b <= key a) (Js.sort (fun a b => key b - key a) l).
Proof.
  induction l as [|x l IH]; [constructor|].
  cbn [Js.sort fold_right]. now apply insert_sorted.
Qed.

Lemma insert_front (x : A) (l : list A) :
  Forall (fun b => key b <= key x) l -> Js.insert (fun a b => key b - key a) x l = x :: l.
Proof.
  intros H. destruct l as [|y l]; [reflexivity|].
  cbn [Js.insert]. inversion H as [|? ? Hy _]; subst.
  assert (G : Js.gt (key y - key x) 0 = false) by (apply gt_false; cbn beta; lra).
  now rewrite G.
Qed.

Lemma sort_of_sorted (l : list A) :
  StronglySorted (fun a b => key b <= key a) l -> Js.sort (fun a b => key b - key a) l = l.
Proof.
  induction 1 as [|x l Hs IH Hx]; [reflexivity|].
  cbn [Js.sort fold_right]. fold (Js.sort (fun a b => key b - key a) l).
  rewrite IH. now apply insert_front.
Qed.

(** Stability: an element is never moved across one of the same key, so the
    elements of one key keep their order. *)
Lemma insert_same_key (s : Q) (x : A) (l : list A) :
  filter (fun a => Qeq_bool (key a) s)
         (Js.insert (fun a b => key b - key a) x l)
  = filter (fun a => Qeq_bool (key a) s) (x :: l).
Proof.
  induction l as [|y l IH]; [reflexivity|].
  cbn [Js.insert]. destruct (Js.gt (key y - key x) 0) eqn:G; [|reflexivity].
  apply gt_spec in G. cbn beta in G.
  cbn [filter] in IH |- *. rewrite IH.
  destruct (Qeq_bool (key y) s) eqn:Ey; [|reflexivity].
  destruct (Qeq_bool (key x) s) eqn:Ex; [|reflexivity].
  apply Qeq_bool_iff in Ey, Ex. exfalso. lra.
Qed.

Lemma sort_same_key (s : Q) (l : list A) :
  filter (fun a => Qeq_bool (key a) s) (Js.sort (fun a b => key b - key a) l)
  = filter (fun a => Qeq_bool (key a) s) l.
Proof.
  induction l as [|x l IH]; [reflexivity|].
  cbn [Js.sort fold_right]. fold (Js.sort (fun a b => key b - key a) l).
  rewrite insert_same_key. cbn [filter]. now rewrite IH.
Qed.

End SortByKey.

(** X17: the chart shows every entry exactly once, highest score first. *)
Theorem chartData_is_sorted_by_score (performances : list FullUserPerformance.t) :
  Permutation (DashboardOverview.chartData performances)
              (map DashboardOverview.chartEntry performances)
  /\ StronglySorted
       (fun a b => DashboardOverview.scoreOf b <= DashboardOverview.scoreOf a)
       (DashboardOverview.chartData performances)
  /\ List.length (DashboardOverview.chartData performances)
     = List.length performances.
Proof.
  unfold DashboardOverview.chartData. split; [apply sort_permutation|].
  split; [apply sort_sorted|].
  rewrite (Permutation_length (sort_permutation _ _)). apply length_map.
Qed.

(** A list that is in order already is charted as it is. *)
Lemma chartData_keeps_an_ordered_list (performances : list FullUserPerformance.t) :
  StronglySorted
    (fun a b => FullUserPerformance.final_score b
                <= FullUserPerformance.final_score a) performances ->
  DashboardOverview.chartData performances
  = map DashboardOverview.chartEntry performances.
Proof.
  intros H. unfold DashboardOverview.chartData. apply sort_of_sorted.
  induction H as [|p ps Hs IH Hp]; [constructor|].
  cbn [map]. constructor; [exact IH|].
  apply Forall_map. exact Hp.
Qed.

(** X18: the sort of the chart is stable, whatever the order of the
    entries: for every score, the bars of this score stand in the chart in
    the order in which their entries stand in the list. *)
Theorem chartData_is_stable
    (performances : list FullUserPerformance.t) (s : Q) :
  filter (fun e => Qeq_bool (DashboardOverview.scoreOf e) s)
         (DashboardOverview.chartData performances)
  = map DashboardOverview.chartEntry
      (filter (fun p => Qeq_bool (FullUserPerformance.final_score p) s)
              performances).
Proof.
  unfold DashboardOverview.chartData. rewrite sort_same_key.
  induction performances as [|p ps IH]; [reflexivity|].
  cbn [map filter].
  change (DashboardOverview.scoreOf (DashboardOverview.chartEntry p))
    with (FullUserPerformance.final_score p).
  destruct (Qeq_bool (FullUserPerformance.final_score p) s);
    cbn [map]; now rewrite IH.
Qed.

(** Two members of score 130 around one of score 250: the higher one moves
    to the front, the two equal ones keep their order. *)
Example chartData_stable_example :
  map (JsObject.get "id")
      (DashboardOverview.chartData
         [member "a" scenario; member "c" (baseOnly 250); member "b" scenario])
  = [Some (JsObject.VString "c"); Some (JsObject.VString "a");
     Some (JsObject.VString "b")].
Proof. reflexivity. Qed.

(** ** components/UserDetail.tsx *)

(** X19: for a final score that is a multiple of 0.5 of moderate size, the
    level badge shows the number of the band of fifty points the score lies
    in, bands counted from one at zero: the level is an integer L with
    50 (L - 1) <= final_score < 50 L; below zero it is zero or negative.
    For such a score the rounded quotient of the code lies between the same
    two whole numbers as the exact quotient, so its floor is the same. *)
Theorem level_is_the_band_of_fifty (user : FullUserPerformance.t) :
  isSmallHalf (FullUserPerformance.final_score user) ->
  (exists z, UserDetail.level user == inject_Z z)
  /\ 50 * (UserDetail.level user - 1) <= FullUserPerformance.final_score user
  /\ FullUserPerformance.final_score user < 50 * UserDetail.level user
  /\ (FullUserPerformance.final_score user < 0 -> UserDetail.level user <= 0).
Proof.
  intros _. unfold UserDetail.level, Js.Math_floor.
  set (x := FullUserPerformance.final_score user).
  pose proof (Qfloor_le (x / 50)) as Hle.
  pose proof (Qlt_floor (x / 50)) as Hlt.
  rewrite inject_Z_plus in Hlt. change (inject_Z 1) with 1 in Hlt.
  assert (Hx : x == (x / 50) * 50) by (field; discriminate).
  set (n := Qfloor (x / 50)) in *.
  set (y := x / 50) in *.
  split.
  { exists (n + 1)%Z. rewrite inject_Z_plus. reflexivity. }
  split; [rewrite Hx; lra|]. split; [rewrite Hx at 1; lra|].
  intros Hneg. rewrite Hx in Hneg.
  assert (Hy : y < 0) by lra.
  assert (Hz : (n < 0)%Z).
  { apply Z.lt_nge. intros Hge.
    assert (0 <= inject_Z n).
    { change 0 with (inject_Z 0). rewrite <- Zle_Qle. exact Hge. }
    lra. }
  assert (inject_Z n <= -1).
  { change (-1) with (inject_Z (-1)). rewrite <- Zle_Qle. lia. }
  lra.
Qed.

Lemma level_is_the_band_of_fifty_witness :
  isSmallHalf (FullUserPerformance.final_score (member "a" scenario))
  /\ 50 * (UserDetail.level (member "a" scenario) - 1)
     <= FullUserPerformance.final_score (member "a" scenario)
  /\ FullUserPerformance.final_score (member "a" scenario)
     < 50 * UserDetail.level (member "a" scenario)
  /\ UserDetail.level (member "a" scenario) == 3.
Proof.
  assert (H : isSmallHalf
                (FullUserPerformance.final_score (member "a" scenario))).
  { exists 260%Z. split; [reflexivity|]. cbn. lia. }
  split; [exact H|].
  destruct (level_is_the_band_of_fifty (member "a" scenario) H)
    as (_ & Hlo & Hhi & _).
  split; [exact Hlo|]. split; [exact Hhi|]. reflexivity.
Defined.

(** X20: for every entry that a batch run produces, the three figures of the
    detail view make up the final score, difficulty plus kudos minus
    penalty, and the "High Retention Risk" badge is shown exactly for the
    final scores above 160. *)
Theorem detail_view_agrees_with_the_final_score
    (roster : list User.t) (w : World) :
  exists w',
    App.loadDataWith (ret roster) w = (inr tt, w')
    /\ Forall (fun p =>
                 FullUserPerformance.final_score p
                 = UserDetail.difficultyScore p + UserDetail.kudosScore p
                   - UserDetail.penaltyScore p
                 /\ UserDetail.showsRetentionRisk p
                    = Js.gt (FullUserPerformance.final_score p) 160)
         (performances (app w')).
Proof.
  destruct (loadDataWith_run roster w)
    as (rs & w' & Hrun & Hrs & Hu & Hp & Hl & He & Hc).
  exists w'. rewrite Hp. split; [exact Hrun|].
  eapply Forall_impl; [|exact (nonNull_scores _ _ _ Hrs)].
  intros p (Hs & a & Ha & _ & Hr). split; [exact Hs|].
  unfold UserDetail.showsRetentionRisk. rewrite Ha, Hr.
  destruct (Js.gt (FullUserPerformance.final_score p) 160); reflexivity.
Qed.

(** ** More of App.tsx *)

(** X21: the retry button does what the initial load does: applying the URL
    of the input first makes no difference, since [loadData] applies it
    again before the first request. *)
Theorem handleRetry_is_loadData (w : World) :
  App.handleRetry w = App.loadData w.
Proof.
  unfold App.handleRetry, App.loadData, App.loadDataWith,
    try_finally, try_catch.
  unfold bind at 1. unfold App.getApiUrl at 1.
  unfold bind at 1. unfold Api.setApiBaseUrl at 1, modify at 1.
  reflexivity.
Qed.

Lemma filter_nil_iff {A} (f : A -> bool) (l : list A) :
  filter f l = [] <-> Forall (fun x => f x = false) l.
Proof.
  induction l as [|x l IH]; cbn.
  - split; auto.
  - destruct (f x) eqn:E; split; intros H.
    + discriminate H.
    + inversion H; congruence.
    + constructor; [exact E|now apply IH].
    + inversion H; now apply IH.
Qed.

(** X22: after a batch run the page shows the error message exactly when
    the roster is not empty and no member at all could be scored; in every
    other case, an empty roster included, the error is unset. *)
Theorem loadData_error_iff_nobody_scored (roster : list User.t) (w : World) :
  exists w',
    App.loadDataWith (ret roster) w = (inr tt, w')
    /\ (error (app w') = Some noScoresMessage
        <-> roster <> []
            /\ Forall (fun user => scorable (pointed w) (User.id user) = false)
                 roster)
    /\ (error (app w') = None
        <-> roster = []
            \/ Exists (fun user => scorable (pointed w) (User.id user) = true)
                 roster).
Proof.
  destruct (loadDataWith_run roster w)
    as (rs & w' & Hrun & Hrs & Hu & Hp & Hl & He & Hc).
  exists w'. split; [exact Hrun|]. rewrite He.
  pose proof (nonNull_ids _ _ _ Hrs) as Hids.
  assert (Hlen : List.length (App.nonNull rs) = 0%nat
                 <-> Forall (fun user =>
                               scorable (pointed w) (User.id user) = false)
                       roster).
  { rewrite <- (length_map FullUserPerformance.id), Hids, length_zero_iff_nil,
      filter_nil_iff, Forall_map. reflexivity. }
  destruct (List.length (App.nonNull rs) =? 0)%nat eqn:E0.
  - apply Nat.eqb_eq in E0. apply Hlen in E0.
    destruct roster as [|u roster']; cbn [List.length Nat.ltb Nat.leb andb].
    + split; split; try discriminate; auto; intros (H & _); congruence.
    + split; split; try discriminate; auto.
      * intros _. split; [discriminate|exact E0].
      * intros [H|H]; [discriminate H|].
        apply Exists_exists in H. destruct H as (x & Hx & Hs).
        rewrite Forall_forall in E0. rewrite (E0 x Hx) in Hs. discriminate.
  - apply Nat.eqb_neq in E0. cbn [andb].
    split; split; try discriminate; auto.
    + intros (_ & H). apply Hlen in H. contradiction.
    + intros _. right. apply Exists_exists.
      destruct (Forall_Exists_dec
                  (fun user => scorable (pointed w) (User.id user) = false)
                  (fun user => bool_dec _ _) roster) as [Hall|Hex].
      * apply Hlen in Hall. contradiction.
      * apply Exists_exists in Hex. destruct Hex as (x & Hx & Hs).
        exists x. split; [exact Hx|].
        now destruct (scorable (pointed w) (User.id x)).
Qed.

Lemma find_by_id_none (x : string) (l : list FullUserPerformance.t) :
  ~ In x (map FullUserPerformance.id l) ->
  find (fun p => String.eqb (FullUserPerformance.id p) x) l = None.
Proof.
  induction l as [|p l IH]; [reflexivity|]. cbn. intros H.
  destruct (String.eqb_spec (FullUserPerformance.id p) x) as [E|E].
  - exfalso. apply H. now left.
  - apply IH. intros Hin. apply H. now right.
Qed.

Lemma find_by_id_some (x : string) (l : list FullUserPerformance.t) :
  In x (map FullUserPerformance.id l) ->
  exists p, find (fun p => String.eqb (FullUserPerformance.id p) x) l = Some p
            /\ In p l /\ FullUserPerformance.id p = x.
Proof.
  induction l as [|p l IH]; [intros []|]. cbn. intros H.
  destruct (String.eqb_spec (FullUserPerformance.id p) x) as [E|E].
  - exists p. auto.
  - destruct H as [H|H]; [contradiction|].
    destruct (IH H) as (q & Hf & Hin & Hq). exists q. auto.
Qed.

(** X23: the sidebar lists every member of the roster, but the detail view
    exists only for the scored ones.  After a batch run, selecting a member
    that could not be scored finds no entry, so a logged-in page without
    error shows the overview instead of the member. *)
Theorem selecting_an_unscored_member_shows_the_overview
    (roster : list User.t) (w : World) (id : string) :
  scorable (pointed w) id = false ->
  exists w',
    App.loadDataWith (ret roster) w = (inr tt, w')
    /\ App.selectedUserPerformance (Some id) (performances (app w')) = None
    /\ (error (app w') = None ->
        App.render true (Some id) (app w') = App.OverviewView).
Proof.
  intros Hs.
  destruct (loadDataWith_run roster w)
    as (rs & w' & Hrun & Hrs & Hu & Hp & Hl & He & Hc).
  exists w'. split; [exact Hrun|].
  assert (Hsel : App.selectedUserPerformance (Some id) (performances (app w'))
                 = None).
  { unfold App.selectedUserPerformance. destruct (Js.truthy id); [|reflexivity].
    apply find_by_id_none. rewrite Hp, (nonNull_ids _ _ _ Hrs).
    intros Hin. apply filter_In in Hin. destruct Hin as (_ & Hin). congruence. }
  split; [exact Hsel|].
  intros Hnone. unfold App.render. cbn [negb]. now rewrite Hl, Hnone, Hsel.
Qed.

Lemma selecting_an_unscored_member_witness :
  scorable (pointed (world bobDown (fun _ => 0.5))) "bob-backend" = false
  /\ exists w',
       App.loadDataWith (ret (map Api.userOfId Api.PROVIDED_USER_IDS))
         (world bobDown (fun _ => 0.5)) = (inr tt, w')
       /\ App.selectedUserPerformance (Some "bob-backend")
            (performances (app w')) = None
       /\ (error (app w') = None ->
           App.render true (Some "bob-backend") (app w') = App.OverviewView).
Proof.
  split; [reflexivity|].
  apply (selecting_an_unscored_member_shows_the_overview
           (map Api.userOfId Api.PROVIDED_USER_IDS)
           (world bobDown (fun _ => 0.5)) "bob-backend").
  reflexivity.
Defined.

(** X24: after a batch run, selecting a member of the roster that could be
    scored opens the detail view of an entry with that member's id. *)
Theorem selecting_a_scored_member_shows_the_detail
    (roster : list User.t) (w : World) (id : string) :
  In id (map User.id roster) ->
  scorable (pointed w) id = true ->
  id <> ""%string ->
  exists w' p,
    App.loadDataWith (ret roster) w = (inr tt, w')
    /\ App.selectedUserPerformance (Some id) (performances (app w')) = Some p
    /\ FullUserPerformance.id p = id
    /\ In p (performances (app w'))
    /\ App.render true (Some id) (app w') = App.DetailView p.
Proof.
  intros Hin Hs Hid.
  destruct (loadDataWith_run roster w)
    as (rs & w' & Hrun & Hrs & Hu & Hp & Hl & He & Hc).
  assert (Hin' : In id (map FullUserPerformance.id (performances (app w')))).
  { rewrite Hp, (nonNull_ids _ _ _ Hrs). apply filter_In. auto. }
  destruct (find_by_id_some _ _ Hin') as (p & Hf & Hp' & Hpid).
  assert (Ht : Js.truthy id = true).
  { unfold Js.truthy. destruct (String.eqb_spec id ""); [contradiction|auto]. }
  assert (Hsel : App.selectedUserPerformance (Some id) (performances (app w'))
                 = Some p).
  { unfold App.selectedUserPerformance. now rewrite Ht. }
  exists w', p. repeat split; auto.
  assert (Herr : error (app w') = None).
  { rewrite He. destruct (List.length (App.nonNull rs) =? 0)%nat eqn:E0;
      [|reflexivity].
    apply Nat.eqb_eq, length_zero_iff_nil in E0.
    rewrite Hp, E0 in Hp'. destruct Hp'. }
  unfold App.render. cbn [negb]. now rewrite Hl, Herr, Hsel.
Qed.

Lemma selecting_a_scored_member_witness :
  In "alice-dev" (map User.id (map Api.userOfId Api.PROVIDED_USER_IDS))
  /\ scorable (pointed (world bobDown (fun _ => 0.5))) "alice-dev" = true
  /\ "alice-dev" <> ""%string
  /\ exists w' p,
       App.loadDataWith (ret (map Api.userOfId Api.PROVIDED_USER_IDS))
         (world bobDown (fun _ => 0.5)) = (inr tt, w')
       /\ App.selectedUserPerformance (Some "alice-dev")
            (performances (app w')) = Some p
       /\ FullUserPerformance.id p = "alice-dev"%string
       /\ In p (performances (app w'))
       /\ App.render true (Some "alice-dev") (app w') = App.DetailView p.
Proof.
  assert (H1 : In "alice-dev"%string
                 (map User.id (map Api.userOfId Api.PROVIDED_USER_IDS))).
  { left. reflexivity. }
  assert (H3 : "alice-dev"%string <> ""%string) by discriminate.
  split; [exact H1|]. split; [reflexivity|]. split; [exact H3|].
  exact (selecting_a_scored_member_shows_the_detail
           (map Api.userOfId Api.PROVIDED_USER_IDS)
           (world bobDown (fun _ => 0.5)) "alice-dev" H1 eq_refl H3).
Defined.

(** What a batch run leaves alone: the backend and the URL of the page; the
    service ends up pointed at that URL. *)
Lemma loadDataWith_frame (roster : list User.t) (w w' : World) :
  App.loadDataWith (ret roster) w = (inr tt, w') ->
  network w' = network w
  /\ apiUrl (app w') = apiUrl (app w)
  /\ API_BASE w' = Js.dropTrailingSlash (apiUrl (app w)).
Proof.
  unfold App.loadDataWith, try_finally, try_catch.
  unfold bind at 1. unfold App.setLoading at 1, modify at 1.
  unfold bind at 1. unfold App.setError at 1, modify at 1.
  unfold bind at 1. unfold App.getApiUrl at 1.
  unfold bind at 1. unfold Api.setApiBaseUrl at 1, modify at 1.
  unfold bind at 1. unfold ret at 1.
  unfold bind at 1. unfold App.setUsers at 1, modify at 1.
  unfold bind at 1. unfold console_write at 1, modify at 1.
  unfold bind at 1.
  match goal with
  | |- context [App.scoreRoster roster ?wx] =>
      destruct (scoreRoster_run roster wx)
        as (rs & w1 & Hrun & Hsame & Hrs & Hc)
  end.
  rewrite Hrun. destruct Hsame as (HA & HN & HP).
  unfold App.setPerformances, App.setError, App.setLoading,
    modify, with_app, ret.
  destruct ((List.length (App.nonNull rs) =? 0)
            && (0 <? List.length roster))%nat;
    intros H; inversion H; subst w'; cbn; rewrite HP; cbn; auto.
Qed.

Lemma scoredAs_agree (wA wB : World) (roster : list User.t) :
  (forall id, backendData wA id = backendData wB id) ->
  forall rsA rsB,
    Forall2 (scoredAs wA) roster rsA ->
    Forall2 (scoredAs wB) roster rsB ->
    map withoutAdvanced (App.nonNull rsA)
    = map withoutAdvanced (App.nonNull rsB).
Proof.
  intros Hd. induction roster as [|user rest IH]; intros rsA rsB HA HB.
  - inversion HA; inversion HB; reflexivity.
  - inversion HA as [|? a ? rsA' Ha HA']; subst.
    inversion HB as [|? b ? rsB' Hb HB']; subst.
    unfold scoredAs in Ha, Hb. rewrite Hd in Ha.
    destruct (backendData wB (User.id user)) as [[data v]|].
    + destruct Ha as (xa & -> & _). destruct Hb as (xb & -> & _).
      cbn [App.nonNull map]. f_equal. now apply IH.
    + subst a b. cbn [App.nonNull]. now apply IH.
Qed.

(** X25: loading twice against an unchanged backend reproduces the page.
    The second run stores the same users, the same error state and, entry
    by entry, the same members with the same variables and final scores;
    only the advanced metrics, which hold the random history, may differ. *)
Theorem loadData_twice_reproduces_the_page (roster : list User.t) (w : World) :
  exists w1 w2,
    App.loadDataWith (ret roster) w = (inr tt, w1)
    /\ App.loadDataWith (ret roster) w1 = (inr tt, w2)
    /\ users (app w2) = users (app w1)
    /\ error (app w2) = error (app w1)
    /\ loading (app w2) = loading (app w1)
    /\ API_BASE w2 = API_BASE w1
    /\ map withoutAdvanced (performances (app w2))
       = map withoutAdvanced (performances (app w1)).
Proof.
  destruct (loadDataWith_run roster w)
    as (rs1 & w1 & Hrun1 & Hrs1 & Hu1 & Hp1 & Hl1 & He1 & _).
  destruct (loadDataWith_run roster w1)
    as (rs2 & w2 & Hrun2 & Hrs2 & Hu2 & Hp2 & Hl2 & He2 & _).
  destruct (loadDataWith_frame _ _ _ Hrun1) as (HN1 & HU1 & HA1).
  destruct (loadDataWith_frame _ _ _ Hrun2) as (HN2 & HU2 & HA2).
  assert (Hd : forall id, backendData (pointed w1) id
                          = backendData (pointed w) id).
  { intros id. unfold backendData, scoreUrl, pointed. cbn.
    now rewrite HU1, HN1. }
  pose proof (scoredAs_agree _ _ _ Hd _ _ Hrs2 Hrs1) as Hsame.
  exists w1, w2. split; [exact Hrun1|]. split; [exact Hrun2|].
  split; [congruence|].
  split.
  { rewrite He1, He2.
    rewrite <- (length_map withoutAdvanced (App.nonNull rs2)), Hsame,
      length_map. reflexivity. }
  split; [congruence|].
  split; [rewrite HA2, HA1, HU1; reflexivity|].
  now rewrite Hp1, Hp2.
Qed.

(** X26: what the loader makes of the outcome of [calculateScore].  When
    the call throws, the member's entry is null and the console gets one
    line with the very error that was thrown, nothing else changing.  When
    it resolves with a [variables] object, the entry is the member's id,
    name, role and avatar with the summary, the variables and the advanced
    metrics of the response, and the final score is recomputed from these
    variables, whatever final_score the backend sent. *)
Theorem scoreUser_follows_calculateScore (user : User.t) (w : World) :
  match Api.calculateScore (User.id user) w with
  | (inl e, w1) =>
      exists w',
        App.scoreUser user w = (inr None, w')
        /\ console w'
           = (console w1
              ++ [(("Error processing user " ++ User.id user)%string,
                   Some e)])%list
        /\ sameBackend w1 w' /\ drawn w' = drawn w1
        /\ requests w' = requests w1
  | (inr r, w1) =>
      forall v,
        ScoredResponse.variables r = Some v ->
        App.scoreUser user w
        = (inr (Some {| FullUserPerformance.id := User.id user;
                        FullUserPerformance.name := User.name user;
                        FullUserPerformance.role := User.role user;
                        FullUserPerformance.avatarUrl := User.avatarUrl user;
                        FullUserPerformance.analysis_summary :=
                          ScoredResponse.analysis_summary r;
                        FullUserPerformance.variables := v;
                        FullUserPerformance.final_score :=
                          App.calculatedScore v;
                        FullUserPerformance.advanced :=
                          Some (ScoredResponse.advanced r) |}), w1)
  end.
Proof.
  unfold App.scoreUser, try_catch, bind.
  destruct (Api.calculateScore (User.id user) w) as [[e|r] w1].
  - eexists. split; [reflexivity|]. repeat split.
  - intros v Hv. rewrite Hv. reflexivity.
Qed.

Lemma prefix_append (sub b : string) : prefix sub (sub ++ b) = true.
Proof.
  induction sub as [|c r IH]; cbn; [now destruct b|].
  destruct (ascii_dec c c); [exact IH|contradiction].
Qed.

Lemma includes_inside (a sub b : string) :
  sub <> ""%string -> Js.includes (a ++ sub ++ b) sub = true.
Proof.
  intros Hsub. unfold Js.includes.
  assert (H : exists n, index 0 sub (a ++ sub ++ b) = Some n).
  { induction a as [|c a IH].
    - cbn [append]. destruct sub as [|x sub']; [contradiction|].
      pose proof (prefix_append (String x sub') b) as Hp.
      cbn [append] in Hp. cbn [append index]. rewrite Hp.
      eexists; reflexivity.
    - cbn [append index]. destruct IH as (n & ->).
      destruct (prefix sub (String c (a ++ sub ++ b))); eexists; reflexivity. }
  destruct H as (n & ->). reflexivity.
Qed.

(** X27: the role figures follow the letters of the whole id, not its role
    segment.  Every id that contains "arch" anywhere, such as archie-dev,
    gets the architect's figures (Architecture 95 without gap, mentorship
    9.2, 450 hours of tech debt), and every id that contains "ml", such as
    hamlet-dev, gets the innovation score 92. *)
Theorem role_figures_match_substrings
    (before after : string) (baseScore : Q) (w : World) :
  (exists m w',
     Api.generateAdvancedMetrics (before ++ "arch" ++ after) baseScore w
     = (inr m, w')
     /\ In {| SkillMetric.name := "Architecture"; SkillMetric.score := 95;
              SkillMetric.gap := 0 |} (AdvancedMetrics.skills m)
     /\ CareerGrowth.mentorship_score (AdvancedMetrics.growth m) = 9.2
     /\ AdvancedMetrics.tech_debt_reduction m = 450)
  /\ (exists m w',
        Api.generateAdvancedMetrics (before ++ "ml" ++ after) baseScore w
        = (inr m, w')
        /\ AdvancedMetrics.innovation_score m = 92
        /\ In {| SkillMetric.name := "Innovation"; SkillMetric.score := 95;
                 SkillMetric.gap := 0 |} (AdvancedMetrics.skills m)).
Proof.
  split.
  - unfold Api.generateAdvancedMetrics, bind.
    rewrite generateHistory_points.
    rewrite (includes_inside before "arch" after) by discriminate.
    do 2 eexists. split; [reflexivity|]. cbn. auto.
  - unfold Api.generateAdvancedMetrics, bind.
    rewrite generateHistory_points.
    rewrite (includes_inside before "ml" after) by discriminate.
    do 2 eexists. split; [reflexivity|]. cbn. auto 8.
Qed.

(** archie-dev is a developer by role and an architect by name. *)
Example archie_is_an_architect :
  Api.userOfId "archie-dev"
  = {| User.id := "archie-dev"; User.name := "Archie"; User.role := "DEV";
       User.avatarUrl := None |}
  /\ Js.includes "archie-dev" "arch" = true.
Proof. split; reflexivity. Qed.

(** ** Small teams *)


